(** * A shallow embedding of [etl_connector.py]

    The connector fetches a JSON feed over HTTP, rewrites the keys of every
    record so that the document store accepts them, stamps each record with
    the ingestion time and bulk-inserts the batch.

    Python values are embedded as an inductive type, dictionaries as
    insertion-ordered association lists, and the calls that leave the
    process (HTTP, clock, store, logger) as an explicit [world] of oracles
    together with a state that records every such call.  The sanitizer
    recurses on the interpreter's stack: it is embedded with the number of
    nested calls the recursion limit still allows, and raises
    [RecursionError] where they do not suffice. *)

From Stdlib Require Import List String Ascii ZArith Lia Bool Arith.
From Stdlib Require Import Floats.SpecFloat DecimalString.
Import ListNotations.
Open Scope string_scope.

Set Implicit Arguments.

(** ** Python values *)

(** The values [resp.json()] can produce.  A [str] is kept as the bytes of
    its UTF-8 encoding: ['.'] and ['$'] are single bytes that occur in no
    multi-byte sequence, so replacing them byte by byte is [str.replace]. *)
#[local] Unset Elimination Schemes.
Inductive pyval : Type :=
| PyNone
| PyBool (b : bool)
| PyInt (n : Z)
| PyFloat (x : spec_float)
| PyStr (s : string)
| PyList (items : list pyval)
| PyDict (fields : list (string * pyval)).
#[local] Set Elimination Schemes.

Definition is_dict (v : pyval) : bool :=
  match v with PyDict _ => true | _ => false end.

Definition is_list (v : pyval) : bool :=
  match v with PyList _ => true | _ => false end.

(** [type(v).__name__], as the interpreter prints it in its messages. *)
Definition type_name (v : pyval) : string :=
  match v with
  | PyNone => "NoneType"
  | PyBool _ => "bool"
  | PyInt _ => "int"
  | PyFloat _ => "float"
  | PyStr _ => "str"
  | PyList _ => "list"
  | PyDict _ => "dict"
  end.

(** ** Dictionaries

    A [dict] keeps its keys in insertion order and holds each key once.
    [d[k] = v] overwrites the value in place when [k] is there and appends
    the pair otherwise. *)
Section Dict.
Variable V : Type.

Definition dict : Type := list (string * V).

Definition keys (d : dict) : list string := map fst d.

Fixpoint dict_get (d : dict) (k : string) : option V :=
  match d with
  | [] => None
  | (k', v) :: d' => if String.eqb k' k then Some v else dict_get d' k
  end.

(** [d.get(k, default)] *)
Definition dict_get_default (d : dict) (k : string) (default : V) : V :=
  match dict_get d k with Some v => v | None => default end.

Fixpoint dict_set (d : dict) (k : string) (v : V) : dict :=
  match d with
  | [] => [(k, v)]
  | (k', v') :: d' =>
      if String.eqb k' k then (k', v) :: d' else (k', v') :: dict_set d' k v
  end.

(** A list of pairs is a dictionary when no key occurs twice. *)
Fixpoint nodup_keys (ks : list string) : bool :=
  match ks with
  | [] => true
  | k :: ks' => negb (existsb (String.eqb k) ks') && nodup_keys ks'
  end.

(** The dictionary a loop [for k, v in items: new[k] = v] builds on top
    of [new]. *)
Definition assign_all (items : list (string * V)) (new : dict) : dict :=
  fold_left (fun new kv => dict_set new (fst kv) (snd kv)) items new.
End Dict.

(** ** Strings *)

(** [s.replace(old, new)] for one-character [old] and [new]. *)
Fixpoint str_replace (old new : ascii) (s : string) : string :=
  match s with
  | EmptyString => EmptyString
  | String c s' =>
      String (if Ascii.eqb c old then new else c) (str_replace old new s')
  end.

(** [k.replace(".", "_").replace("$", "_")] *)
Definition new_key (k : string) : string :=
  str_replace "$" "_" (str_replace "." "_" k).

Definition str_of_nat (n : nat) : string :=
  NilZero.string_of_uint (Nat.to_uint n).

Definition str_of_Z (z : Z) : string :=
  NilZero.string_of_int (Z.to_int z).

(** ** What the sanitizer builds *)

(** The value [sanitize_for_mongo] builds for [obj]; it is the value the
    call returns when the interpreter's stack holds its recursion (see
    [sanitize_for_mongo] below). *)
Fixpoint sanitized (obj : pyval) : pyval :=
  match obj with
  | PyDict fields =>
      PyDict
        (fold_left
           (fun new kv =>
              dict_set new (new_key (fst kv)) (sanitized (snd kv)))
           fields [])
  | PyList items => PyList (map sanitized items)
  | _ => obj
  end.

(** The pairs the dictionary branch assigns, in the order it assigns them. *)
Definition sanitized_items (fields : list (string * pyval))
  : list (string * pyval) :=
  map (fun kv => (new_key (fst kv), sanitized (snd kv))) fields.

(** ** Exceptions *)

Inductive exn_class : Type :=
| AttributeError
| TypeError
| RuntimeError
| HTTPError
| RequestException
| JSONDecodeError
| PyMongoError
| RecursionError
| KeyboardInterrupt
| SystemExit.

Record exn : Type := mkExn { exn_cls : exn_class; exn_msg : string }.

(** [isinstance(e, Exception)]: the interpreter's exit signals derive from
    [BaseException] only. *)
Definition is_Exception (e : exn) : bool :=
  match exn_cls e with
  | KeyboardInterrupt | SystemExit => false
  | _ => true
  end.

(** ** The process and its surroundings *)

Inductive level : Type := INFO | WARNING | ERROR.

(** What the process does to the outside, in the order it does it. *)
Inductive event : Type :=
| EvLog (lvl : level) (msg : string) (exc_info : option exn)
| EvHttpGet (url : option string) (timeout : Z)
| EvMongoClient (uri : string)
| EvInsertMany (db coll : string) (docs : list pyval).

Record response : Type := mkResponse {
  status_code : Z;
  reason : string;
  resp_url : string;
  resp_json : exn + pyval          (* what [resp.json()] does *)
}.

(** A [datetime] in UTC, its fields within their ranges (the year at most
    9999, the microsecond below a million). *)
Record datetime : Type := mkDatetime {
  year : nat; month : nat; day : nat;
  hour : nat; minute : nat; second : nat; microsecond : nat
}.

Definition digit (n : nat) : ascii := ascii_of_nat (48 + n mod 10).

(** [n] in decimal on [width] digits, zeros in front. *)
Fixpoint zero_padded (width n : nat) : string :=
  match width with
  | 0 => EmptyString
  | S width' => zero_padded width' (n / 10) ++ String (digit n) EmptyString
  end.

(** [d.isoformat()] for a [datetime] whose time zone is UTC: the fraction
    is left out when the microsecond is zero. *)
Definition isoformat (d : datetime) : string :=
  zero_padded 4 (year d) ++ "-" ++ zero_padded 2 (month d) ++ "-"
    ++ zero_padded 2 (day d) ++ "T" ++ zero_padded 2 (hour d) ++ ":"
    ++ zero_padded 2 (minute d) ++ ":" ++ zero_padded 2 (second d)
    ++ (if Nat.eqb (microsecond d) 0 then ""
        else "." ++ zero_padded 6 (microsecond d))
    ++ "+00:00".

(** The process environment, the answers of the libraries the module
    calls, and the interpreter the module runs on. *)
Record world : Type := mkWorld {
  environ : string -> option string;     (* after [load_dotenv()] *)
  requests_get : option string -> Z -> exn + response;
  utcnow : nat -> datetime;              (* the n-th reading of the clock *)
  MongoClient : string -> option exn;
  get_collection : string -> string -> option exn;
  insert_many : string -> string -> list pyval -> exn + nat;
  (* the calls the recursion limit still allows inside [transform], past
     the two that its [logger.info] call has just nested *)
  stack_spare : nat;
  (* a call of a builtin ([isinstance], [str.replace]) counts against the
     recursion limit (CPython up to 3.10) *)
  builtin_frame : bool;
  (* a list comprehension runs in a frame of its own (before 3.12) *)
  listcomp_frame : bool
}.

(** [datetime.now(timezone.utc).isoformat()] at the n-th reading. *)
Definition utcnow_isoformat (w : world) (n : nat) : string :=
  isoformat (utcnow w n).

Record state : Type := mkState { trace : list event; clock_reads : nat }.

Definition initial : state := mkState [] 0.

Inductive result (A : Type) : Type :=
| Ok (a : A)
| Raise (e : exn).
Arguments Ok {A} a.
Arguments Raise {A} e.

Definition M (A : Type) : Type := state -> result A * state.

Definition ret {A} (a : A) : M A := fun s => (Ok a, s).

Definition raise {A} (e : exn) : M A := fun s => (Raise e, s).

Definition bind {A B} (m : M A) (k : A -> M B) : M B :=
  fun s =>
    match m s with
    | (Ok a, s') => k a s'
    | (Raise e, s') => (Raise e, s')
    end.

Notation "x <- m ;; k" := (bind m (fun x => k))
  (at level 61, m at next level, right associativity).
Notation "m ;; k" := (bind m (fun _ => k))
  (at level 61, right associativity).

(** [try: body  except Exception as e: handler(e)] *)
Definition try_except {A} (body : M A) (handler : exn -> M A) : M A :=
  fun s =>
    match body s with
    | (Ok a, s') => (Ok a, s')
    | (Raise e, s') =>
        if is_Exception e then handler e s' else (Raise e, s')
    end.

Definition emit (ev : event) : M unit :=
  fun s => (Ok tt, mkState (trace s ++ [ev]) (clock_reads s)).

Definition lift_result {A} (r : result A) : M A := fun s => (r, s).

Definition lift {A} (r : exn + A) : M A :=
  match r with inl e => raise e | inr a => ret a end.

Definition check (r : option exn) : M unit :=
  match r with Some e => raise e | None => ret tt end.

Definition logger_info (msg : string) : M unit := emit (EvLog INFO msg None).

Definition logger_warning (msg : string) : M unit :=
  emit (EvLog WARNING msg None).

(** [logger.exception(msg)] inside a handler: level ERROR, with the
    exception being handled attached. *)
Definition logger_exception (msg : string) (e : exn) : M unit :=
  emit (EvLog ERROR msg (Some e)).

(** [str(x)] for an environment variable, which is a string or [None]. *)
Definition str_of_env (x : option string) : string :=
  match x with Some s => s | None => "None" end.

(** [bool(x)] for an environment variable. *)
Definition env_truthy (x : option string) : bool :=
  match x with
  | None | Some EmptyString => false
  | Some _ => true
  end.

(** ** sanitize_for_mongo *)

(** What the interpreter raises when a call does not fit under the
    recursion limit. *)
Definition recursion_error (context : string) : exn :=
  mkExn RecursionError ("maximum recursion depth exceeded" ++ context).

(** [[f(i) for i in l]]: the first error ends the comprehension. *)
Fixpoint map_result {A B : Type} (f : A -> result B) (l : list A)
  : result (list B) :=
  match l with
  | [] => Ok []
  | x :: rest =>
      match f x with
      | Ok y =>
          match map_result f rest with
          | Ok ys => Ok (y :: ys)
          | Raise e => Raise e
          end
      | Raise e => Raise e
      end
  end.

(** [for k, v in obj.items(): new[new_key] = f(v)] on top of [new]: the
    first error ends the loop. *)
Definition sanitize_loop (f : pyval -> result pyval)
    (fields : list (string * pyval)) (new : result (list (string * pyval)))
  : result (list (string * pyval)) :=
  fold_left
    (fun acc kv =>
       match acc with
       | Ok new =>
           match f (snd kv) with
           | Ok v => Ok (dict_set new (new_key (fst kv)) v)
           | Raise e => Raise e
           end
       | Raise e => Raise e
       end)
    fields new.

(** [sanitize_for_mongo(obj)], called where the recursion limit allows
    [frames] more nested calls.  The call takes one; so does every nested
    call, and every list comprehension where it has a frame of its own;
    and where builtins count against the limit, the body needs room for
    one more call to get past [isinstance] and [str.replace]. *)
Fixpoint sanitize_for_mongo (builtin_frame listcomp_frame : bool)
    (frames : nat) (obj : pyval) : result pyval :=
  match frames with
  | 0 => Raise (recursion_error "")
  | S room =>
      if builtin_frame && Nat.eqb room 0 then
        Raise (recursion_error " while calling a Python object")
      else
        match obj with
        | PyDict fields =>
            match
              sanitize_loop
                (sanitize_for_mongo builtin_frame listcomp_frame room)
                fields (Ok [])
            with
            | Ok new => Ok (PyDict new)
            | Raise e => Raise e
            end
        | PyList items =>
            if listcomp_frame then
              match room with
              | 0 => Raise (recursion_error "")
              | S inner =>
                  match
                    map_result
                      (sanitize_for_mongo builtin_frame listcomp_frame inner)
                      items
                  with
                  | Ok l => Ok (PyList l)
                  | Raise e => Raise e
                  end
              end
            else
              match
                map_result
                  (sanitize_for_mongo builtin_frame listcomp_frame room)
                  items
              with
              | Ok l => Ok (PyList l)
              | Raise e => Raise e
              end
        | _ => Ok obj
        end
  end.

(** ** The connector *)

Section Connector.
Variable w : world.

(** The nested calls the recursion limit allows where [transform] calls
    the sanitizer. *)
Definition frames_left : nat := 2 + stack_spare w.

(** [os.getenv(name)] and [os.getenv(name, default)] *)
Definition getenv (name : string) : option string := environ w name.

Definition getenv_default (name default : string) : string :=
  match environ w name with Some v => v | None => default end.

Definition CISA_KEV_URL : option string := getenv "CISA_KEV_URL".
Definition MONGO_URI : option string := getenv "MONGO_URI".
Definition MONGO_DB : string := getenv_default "MONGO_DB" "etl_db".
Definition MONGO_COLLECTION : string :=
  getenv_default "MONGO_COLLECTION" "cisa_kev".

(** [resp.raise_for_status()] of the HTTP library: the 4xx and 5xx
    statuses raise. *)
Definition raise_for_status (resp : response) : M unit :=
  let tail := ": " ++ reason resp ++ " for url: " ++ resp_url resp in
  if (400 <=? status_code resp)%Z && (status_code resp <? 500)%Z then
    raise (mkExn HTTPError
             (str_of_Z (status_code resp) ++ " Client Error" ++ tail))
  else if (500 <=? status_code resp)%Z && (status_code resp <? 600)%Z then
    raise (mkExn HTTPError
             (str_of_Z (status_code resp) ++ " Server Error" ++ tail))
  else ret tt.

Definition extract (url : option string) : M pyval :=
  logger_info ("Extracting data from " ++ str_of_env url) ;;
  emit (EvHttpGet url 30) ;;
  resp <- lift (requests_get w url 30) ;;
  raise_for_status resp ;;
  lift (resp_json resp).

(** [obj.get(k, default)]: only a dictionary has the method. *)
Definition py_get (obj : pyval) (k : string) (default : pyval) : M pyval :=
  match obj with
  | PyDict d => ret (dict_get_default d k default)
  | _ =>
      raise (mkExn AttributeError
               ("'" ++ type_name obj ++ "' object has no attribute 'get'"))
  end.

(** The items a [for] loop draws from [v]: the elements of a list, the
    keys of a dictionary, the one-character strings of a string (one per
    byte here, one per code point in Python: the same for ASCII text, and
    empty together). *)
Definition py_iter (v : pyval) : M (list pyval) :=
  match v with
  | PyList items => ret items
  | PyDict d => ret (map PyStr (keys d))
  | PyStr s =>
      ret (map (fun c => PyStr (String c EmptyString))
             (list_ascii_of_string s))
  | _ =>
      raise (mkExn TypeError
               ("'" ++ type_name v ++ "' object is not iterable"))
  end.

(** [doc[k] = v] with a string [k]: only a dictionary takes it. *)
Definition py_setitem (doc : pyval) (k : string) (v : pyval) : M pyval :=
  match doc with
  | PyDict d => ret (PyDict (dict_set d k v))
  | PyList _ =>
      raise (mkExn TypeError
               "list indices must be integers or slices, not str")
  | _ =>
      raise (mkExn TypeError
               ("'" ++ type_name doc
                    ++ "' object does not support item assignment"))
  end.

(** [datetime.now(timezone.utc).isoformat()] *)
Definition now_isoformat : M string :=
  fun s =>
    (Ok (utcnow_isoformat w (clock_reads s)),
     mkState (trace s) (S (clock_reads s))).

(** The body of [for item in vulnerabilities], over the items left. *)
Fixpoint transform_loop (items docs : list pyval) : M (list pyval) :=
  match items with
  | [] => ret docs
  | item :: rest =>
      doc <- lift_result
               (sanitize_for_mongo (builtin_frame w) (listcomp_frame w)
                  frames_left item) ;;
      ts <- now_isoformat ;;
      doc <- py_setitem doc "ingested_at" (PyStr ts) ;;
      transform_loop rest (docs ++ [doc])
  end.

Definition transform (raw_data : pyval) : M (list pyval) :=
  logger_info "Transforming data..." ;;
  vulnerabilities <- py_get raw_data "vulnerabilities" (PyList []) ;;
  items <- py_iter vulnerabilities ;;
  transform_loop items [].

Definition load_to_mongo (docs : list pyval) : M pyval :=
  if negb (env_truthy MONGO_URI) then
    raise (mkExn RuntimeError "MONGO_URI not set in environment variables.")
  else
    emit (EvMongoClient (str_of_env MONGO_URI)) ;;
    check (MongoClient w (str_of_env MONGO_URI)) ;;
    check (get_collection w MONGO_DB MONGO_COLLECTION) ;;
    match docs with
    | _ :: _ =>
        emit (EvInsertMany MONGO_DB MONGO_COLLECTION docs) ;;
        inserted <- lift (insert_many w MONGO_DB MONGO_COLLECTION docs) ;;
        logger_info ("Inserted " ++ str_of_nat inserted
                       ++ " documents into " ++ MONGO_DB ++ "."
                       ++ MONGO_COLLECTION)
    | [] => logger_warning "No documents to insert."
    end ;;
    ret PyNone.

(** The [try] block of [run]. *)
Definition run_body : M pyval :=
  raw <- extract CISA_KEV_URL ;;
  docs <- transform raw ;;
  load_to_mongo docs ;;
  logger_info "ETL process completed successfully." ;;
  ret PyNone.

Definition run : M pyval :=
  try_except run_body
    (fun e =>
       logger_exception ("ETL process failed: " ++ exn_msg e) e ;;
       ret PyNone).
End Connector.

(** ** Observations on values and traces *)

(** Every dictionary inside [v] holds each of its keys once, as every
    Python dictionary does. *)
Fixpoint well_formed (v : pyval) : bool :=
  match v with
  | PyDict fields =>
      nodup_keys (map fst fields)
      && forallb (fun kv => well_formed (snd kv)) fields
  | PyList items => forallb well_formed items
  | _ => true
  end.

Definition clean_char (c : ascii) : bool :=
  negb (Ascii.eqb c ".") && negb (Ascii.eqb c "$").

Fixpoint clean_key (k : string) : bool :=
  match k with
  | EmptyString => true
  | String c k' => clean_char c && clean_key k'
  end.

(** No key anywhere inside [v] contains ['.'] or ['$']. *)
Fixpoint clean_keys (v : pyval) : bool :=
  match v with
  | PyDict fields =>
      forallb (fun kv => clean_key (fst kv) && clean_keys (snd kv)) fields
  | PyList items => forallb clean_keys items
  | _ => true
  end.

(** What the two replacements do to one character. *)
Definition rewrite_char (c : ascii) : ascii :=
  if Ascii.eqb c "." || Ascii.eqb c "$" then "_"%char else c.

(** The keys of a sequence of assignments, each at its first position. *)
Definition add_key (ks : list string) (k : string) : list string :=
  if existsb (String.eqb k) ks then ks else ks ++ [k].



Definition is_insert (ev : event) : bool :=
  match ev with EvInsertMany _ _ _ => true | _ => false end.

Definition is_store_call (ev : event) : bool :=
  match ev with
  | EvMongoClient _ | EvInsertMany _ _ _ => true
  | _ => false
  end.

Definition is_http_get (ev : event) : bool :=
  match ev with EvHttpGet _ _ => true | _ => false end.

Definition is_warning (ev : event) : bool :=
  match ev with EvLog WARNING _ _ => true | _ => false end.

Definition is_log_info (msg : string) (ev : event) : bool :=
  match ev with
  | EvLog INFO m None => String.eqb m msg
  | _ => false
  end.

(** What [extract] does to the outside, whatever comes back. *)
Definition extract_events (url : option string) : list event :=
  [EvLog INFO ("Extracting data from " ++ str_of_env url) None;
   EvHttpGet url 30].

(** The error [load_to_mongo] raises for a missing connection string. *)
Definition config_error : exn :=
  mkExn RuntimeError "MONGO_URI not set in environment variables.".

(** The line the handler of [run] logs for [e]. *)
Definition failure_log (e : exn) : event :=
  EvLog ERROR ("ETL process failed: " ++ exn_msg e) (Some e).

(** The state the handler of [run] leaves when it caught [e] in [s]. *)
Definition failed (e : exn) (s : state) : state :=
  mkState (trace s ++ [failure_log e]) (clock_reads s).

Definition transform_log : event := EvLog INFO "Transforming data..." None.

(** The terminal states of a run, read off the last line it logged. *)
Inductive terminal : Type := DONE | FAILED (e : exn).

Definition terminal_state (t : list event) : option terminal :=
  match rev t with
  | EvLog INFO "ETL process completed successfully." None :: _ => Some DONE
  | EvLog ERROR _ (Some e) :: _ => Some (FAILED e)
  | _ => None
  end.

(** The structure of a value with the names of its keys left out. *)
#[local] Unset Elimination Schemes.
#[local] Set Elimination Schemes.



(** A record as the sanitizer leaves it: a proper dictionary whose keys,
    at every depth, are free of ['.'] and ['$']. *)
Definition sanitized_doc (v : pyval) : bool :=
  is_dict v && well_formed v && clean_keys v.

(** A sanitized record with its ingestion time set. *)
Definition stamp (ts : string) (item : pyval) : pyval :=
  match sanitized item with
  | PyDict d => PyDict (dict_set d "ingested_at" (PyStr ts))
  | other => other
  end.

(** The records of a feed, the first stamped with the [n]-th reading of
    the clock, the next with the one after, and so on. *)
Fixpoint stamp_from (clock : nat -> string) (n : nat) (items : list pyval)
  : list pyval :=
  match items with
  | [] => []
  | item :: rest => stamp (clock n) item :: stamp_from clock (S n) rest
  end.

(** ** Sample feeds and surroundings *)

Definition sample_record : pyval :=
  PyDict [("cve.id", PyStr "CVE-2024-0001");
          ("notes", PyDict [("a.b$c", PyInt 1)])].

Definition stamped_record : pyval :=
  PyDict [("cveID", PyStr "CVE-2023-9999"); ("ingested_at", PyStr "old")].

Definition sample_feed : pyval :=
  PyDict [("title", PyStr "KEV");
          ("vulnerabilities", PyList [sample_record; stamped_record])].

Definition empty_feed : pyval := PyDict [("title", PyStr "KEV")].


Definition colliding_record : pyval :=
  PyDict [("a.b", PyInt 1); ("a$b", PyInt 2); ("c", PyInt 3)].

Definition sample_url : string := "https://feed.example/kev.json".

Definition env_with_store (name : string) : option string :=
  if String.eqb name "CISA_KEV_URL" then Some sample_url
  else if String.eqb name "MONGO_URI" then Some "mongodb://localhost:27017"
  else None.

Definition env_without_store (name : string) : option string :=
  if String.eqb name "CISA_KEV_URL" then Some sample_url else None.

Definition sample_now (n : nat) : datetime := mkDatetime 2024 1 1 0 0 n 0.

Definition sample_clock (n : nat) : string := isoformat (sample_now n).

(** A world whose feed answers [status] with body [feed] and whose store
    accepts everything, on an interpreter that still allows 990 nested
    calls inside [transform] (the default limit of 1000, ten frames in
    use) and counts builtins and list comprehensions against the limit. *)
Definition sample_world (env : string -> option string) (status : Z)
    (status_text : string) (feed : pyval) : world :=
  mkWorld env
    (fun _ _ => inr (mkResponse status status_text sample_url (inr feed)))
    sample_now
    (fun _ => None)
    (fun _ _ => None)
    (fun _ _ docs => inr (List.length docs))
    988 true true.

(** The error a feed answering 500 makes [extract] raise. *)
Definition server_error : exn :=
  mkExn HTTPError
    ("500 Server Error: Internal Server Error for url: " ++ sample_url).

Definition broken_feed_world : world :=
  sample_world env_with_store 500 "Internal Server Error" sample_feed.

(** ** The stack and the clock *)

(** The nested calls [sanitize_for_mongo] needs for [v]: one for the call,
    and under it room for its deepest element, for the list comprehension
    where that has a frame, and for a call of a builtin where that
    counts. *)
Fixpoint stack_need (builtin_frame listcomp_frame : bool) (v : pyval) : nat :=
  match v with
  | PyDict fields =>
      S (Nat.max (Nat.b2n builtin_frame)
           (list_max
              (map (fun kv => stack_need builtin_frame listcomp_frame (snd kv))
                 fields)))
  | PyList items =>
      S (Nat.max (Nat.b2n builtin_frame)
           (Nat.b2n listcomp_frame
            + list_max (map (stack_need builtin_frame listcomp_frame) items)))
  | _ => S (Nat.b2n builtin_frame)
  end.

(** The recursion limit leaves room for sanitizing [v] inside
    [transform]. *)
Definition fits (w : world) (v : pyval) : bool :=
  Nat.leb (stack_need (builtin_frame w) (listcomp_frame w) v) (frames_left w).








(** ** Further observations *)

(** The characters the rewriting sends to ['_']. *)
Definition underscore_like (c : ascii) : bool :=
  Ascii.eqb c "." || Ascii.eqb c "$" || Ascii.eqb c "_".

(** Two keys of one length that differ only where both have one of
    ['.'], ['$'], ['_']. *)
Fixpoint same_up_to_rewriting (k1 k2 : string) : bool :=
  match k1, k2 with
  | EmptyString, EmptyString => true
  | String c1 r1, String c2 r2 =>
      (Ascii.eqb c1 c2 || underscore_like c1 && underscore_like c2)
      && same_up_to_rewriting r1 r2
  | _, _ => false
  end.

Definition is_client (ev : event) : bool :=
  match ev with EvMongoClient _ => true | _ => false end.

Definition is_failure_log (ev : event) : bool :=
  match ev with EvLog ERROR _ _ => true | _ => false end.

Definition completed_log : event :=
  EvLog INFO "ETL process completed successfully." None.

Definition warning_log : event := EvLog WARNING "No documents to insert." None.

Definition inserted_log (w : world) (n : nat) : event :=
  EvLog INFO ("Inserted " ++ str_of_nat n ++ " documents into "
                ++ MONGO_DB w ++ "." ++ MONGO_COLLECTION w) None.

(** What [load_to_mongo] does to the outside for a batch, whatever it
    returns. *)
Definition load_events (w : world) (docs : list pyval) : list event :=
  if negb (env_truthy (MONGO_URI w)) then []
  else
    EvMongoClient (str_of_env (MONGO_URI w)) ::
    match MongoClient w (str_of_env (MONGO_URI w)) with
    | Some _ => []
    | None =>
        match get_collection w (MONGO_DB w) (MONGO_COLLECTION w) with
        | Some _ => []
        | None =>
            match docs with
            | [] => [warning_log]
            | _ :: _ =>
                EvInsertMany (MONGO_DB w) (MONGO_COLLECTION w) docs ::
                match insert_many w (MONGO_DB w) (MONGO_COLLECTION w) docs with
                | inl _ => []
                | inr n => [inserted_log w n]
                end
            end
        end
    end.

(** A feed that is interrupted from the keyboard during the request. *)
Definition interrupt : exn := mkExn KeyboardInterrupt "".

Definition interrupted_world : world :=
  mkWorld env_with_store (fun _ _ => inl interrupt) sample_now
    (fun _ => None) (fun _ _ => None)
    (fun _ _ docs => inr (List.length docs))
    988 true true.

(** A store that refuses every batch. *)
Definition store_error : exn := mkExn PyMongoError "batch op errors occurred".

Definition rejecting_store_world : world :=
  mkWorld env_with_store
    (fun _ _ => inr (mkResponse 200 "OK" sample_url (inr sample_feed)))
    sample_now (fun _ => None) (fun _ _ => None)
    (fun _ _ _ => inl store_error)
    988 true true.

(** A client that refuses the connection string. *)
Definition uri_error : exn := mkExn PyMongoError "Invalid URI scheme".

Definition rejecting_client_world : world :=
  mkWorld env_with_store
    (fun _ _ => inr (mkResponse 200 "OK" sample_url (inr sample_feed)))
    sample_now (fun _ => Some uri_error) (fun _ _ => None)
    (fun _ _ docs => inr (List.length docs))
    988 true true.

Definition env_without_url (name : string) : option string :=
  if String.eqb name "MONGO_URI" then Some "mongodb://localhost:27017"
  else if String.eqb name "MONGO_DB" then Some "kev"
  else None.

(** ** Induction over nested values *)

Section PyvalInd.
Variable P : pyval -> Prop.
Hypothesis HNone : P PyNone.
Hypothesis HBool : forall b, P (PyBool b).
Hypothesis HInt : forall n, P (PyInt n).
Hypothesis HFloat : forall x, P (PyFloat x).
Hypothesis HStr : forall s, P (PyStr s).
Hypothesis HList : forall items, Forall P items -> P (PyList items).
Hypothesis HDict :
  forall fields, Forall (fun kv => P (snd kv)) fields -> P (PyDict fields).

Fixpoint pyval_ind (v : pyval) : P v :=
  match v with
  | PyNone => HNone
  | PyBool b => HBool b
  | PyInt n => HInt n
  | PyFloat x => HFloat x
  | PyStr s => HStr s
  | PyList items =>
      HList
        ((fix all (l : list pyval) : Forall P l :=
            match l with
            | [] => Forall_nil _
            | x :: r => Forall_cons x (pyval_ind x) (all r)
            end) items)
  | PyDict fields =>
      HDict
        ((fix all (l : list (string * pyval))
            : Forall (fun kv => P (snd kv)) l :=
            match l with
            | [] => Forall_nil _
            | kv :: r => Forall_cons kv (pyval_ind (snd kv)) (all r)
            end) fields)
  end.
End PyvalInd.

(** ** Dictionaries: assignment, lookup, keys *)

Lemma eqb_string_sym (a b : string) : String.eqb a b = String.eqb b a.
Proof.
  destruct (String.eqb a b) eqn:E.
  - apply String.eqb_eq in E. subst. symmetry. apply String.eqb_refl.
  - destruct (String.eqb b a) eqn:E'; trivial.
    apply String.eqb_eq in E'. subst. rewrite String.eqb_refl in E.
    discriminate.
Qed.

Lemma mem_key_In (k : string) (ks : list string) :
  existsb (String.eqb k) ks = true <-> In k ks.
Proof.
  rewrite existsb_exists. split.
  - intros [x [Hin Heq]]. apply String.eqb_eq in Heq. now subst.
  - intros Hin. exists k. split; trivial. apply String.eqb_refl.
Qed.

Lemma mem_key_not_In (k : string) (ks : list string) :
  existsb (String.eqb k) ks = false <-> ~ In k ks.
Proof.
  rewrite <- mem_key_In. destruct (existsb _ ks); split; intros H;
    try discriminate; trivial. now elim H.
Qed.

Lemma nodup_keys_NoDup (ks : list string) :
  nodup_keys ks = true <-> NoDup ks.
Proof.
  induction ks as [|k ks IH]; simpl.
  - split; trivial. constructor.
  - rewrite andb_true_iff, negb_true_iff, mem_key_not_In, IH. split.
    + intros [H1 H2]. now constructor.
    + intros H. inversion H. now split.
Qed.

Section DictFacts.
Variable V : Type.
Implicit Types (d new items : list (string * V)) (k : string) (v : V).

Lemma dict_get_set d k v k' :
  dict_get (dict_set d k v) k' =
  if String.eqb k k' then Some v else dict_get d k'.
Proof.
  induction d as [|[k0 v0] d IH]; simpl.
  - destruct (String.eqb k k'); reflexivity.
  - destruct (String.eqb k0 k) eqn:E0; simpl.
    + apply String.eqb_eq in E0. subst k0.
      destruct (String.eqb k k'); reflexivity.
    + destruct (String.eqb k0 k') eqn:E1.
      * destruct (String.eqb k k') eqn:E2; trivial.
        apply String.eqb_eq in E1, E2. subst.
        rewrite String.eqb_refl in E0. discriminate.
      * exact IH.
Qed.




Lemma keys_dict_set d k v : keys (dict_set d k v) = add_key (keys d) k.
Proof.
  unfold add_key.
  induction d as [|[k0 v0] d IH]; simpl; trivial.
  rewrite (eqb_string_sym k k0).
  destruct (String.eqb k0 k); simpl; trivial.
  rewrite IH. now destruct (existsb (String.eqb k) (keys d)).
Qed.


Lemma dict_set_twice d k v v' :
  dict_set (dict_set d k v) k v' = dict_set d k v'.
Proof.
  induction d as [|[k0 v0] d IH]; simpl.
  - now rewrite String.eqb_refl.
  - destruct (String.eqb k0 k) eqn:E; simpl; rewrite E; trivial.
    now rewrite IH.
Qed.

Lemma In_dict_set d k v kv :
  In kv (dict_set d k v) -> kv = (k, v) \/ In kv d.
Proof.
  induction d as [|[k0 v0] d IH]; simpl.
  - intros [H|[]]. now left.
  - destruct (String.eqb k0 k) eqn:E; simpl.
    + apply String.eqb_eq in E. subst k0. intros [H|H]; auto.
    + intros [H|H]; auto. destruct (IH H); auto.
Qed.

Lemma keys_assign_all items new :
  keys (assign_all items new) = fold_left add_key (keys items) (keys new).
Proof.
  revert new. induction items as [|[k v] items IH]; intros new; simpl.
  - reflexivity.
  - unfold assign_all in *. simpl. rewrite IH. now rewrite keys_dict_set.
Qed.


Lemma In_assign_all items new kv :
  In kv (assign_all items new) -> In kv new \/ In kv items.
Proof.
  revert new. induction items as [|[k0 v0] items IH]; intros new; simpl.
  - now left.
  - unfold assign_all in *. simpl. intros H.
    destruct (IH _ H) as [H'|H']; auto.
    destruct (In_dict_set _ _ _ _ H'); auto.
Qed.

End DictFacts.

(** ** Keys at their first position *)


Lemma NoDup_add_key (acc : list string) (k : string) :
  NoDup acc -> NoDup (add_key acc k).
Proof.
  intros H. unfold add_key.
  destruct (existsb (String.eqb k) acc) eqn:E; trivial.
  apply mem_key_not_In in E.
  apply NoDup_app; trivial.
  - constructor; [intros []|constructor].
  - intros a Ha [Hk|[]]. now subst.
Qed.

Lemma NoDup_fold_add_key (l acc : list string) :
  NoDup acc -> NoDup (fold_left add_key l acc).
Proof.
  revert acc. induction l as [|k l IH]; intros acc H; simpl; trivial.
  apply IH. now apply NoDup_add_key.
Qed.



(** ** The key rewriting *)

Lemma new_key_String (c : ascii) (k : string) :
  new_key (String c k) = String (rewrite_char c) (new_key k).
Proof.
  unfold new_key, rewrite_char. simpl.
  destruct (Ascii.eqb c "."); reflexivity.
Qed.



Lemma clean_rewrite_char (c : ascii) : clean_char (rewrite_char c) = true.
Proof.
  unfold clean_char, rewrite_char.
  destruct (Ascii.eqb c ".") eqn:E1; simpl; trivial.
  destruct (Ascii.eqb c "$") eqn:E2; simpl; trivial.
  now rewrite E1, E2.
Qed.

Lemma rewrite_clean_char (c : ascii) :
  clean_char c = true -> rewrite_char c = c.
Proof.
  unfold clean_char, rewrite_char.
  destruct (Ascii.eqb c "."); simpl; try discriminate.
  destruct (Ascii.eqb c "$"); simpl; try discriminate. trivial.
Qed.

Lemma clean_new_key (k : string) : clean_key (new_key k) = true.
Proof.
  induction k as [|c k IH]; trivial.
  rewrite new_key_String. simpl. now rewrite clean_rewrite_char, IH.
Qed.

Lemma new_key_clean (k : string) : clean_key k = true -> new_key k = k.
Proof.
  induction k as [|c k IH]; trivial.
  simpl. rewrite andb_true_iff. intros [Hc Hk].
  rewrite new_key_String, rewrite_clean_char, IH; trivial.
Qed.

(** ** Sanitization *)

Lemma sanitize_dict (fields : list (string * pyval)) :
  sanitized (PyDict fields) =
  PyDict (assign_all (sanitized_items fields) []).
Proof.
  simpl. f_equal. unfold assign_all, sanitized_items.
  generalize (@nil (string * pyval)) as new.
  induction fields as [|kv fields IH]; intros new; simpl; trivial.
Qed.


Lemma forallb_Forall {A} (f : A -> bool) (l : list A) :
  forallb f l = true <-> Forall (fun x => f x = true) l.
Proof.
  rewrite forallb_forall, Forall_forall. reflexivity.
Qed.

Lemma sanitize_well_formed (v : pyval) :
  well_formed (sanitized v) = true.
Proof.
  induction v as [| | | | |items IH|fields IH] using pyval_ind; trivial.
  - simpl. rewrite forallb_Forall, Forall_map. exact IH.
  - rewrite sanitize_dict. simpl. apply andb_true_iff. split.
    + apply nodup_keys_NoDup.
      change (map fst ?d) with (keys d).
      rewrite keys_assign_all. apply NoDup_fold_add_key. constructor.
    + apply forallb_forall. intros kv Hin.
      apply In_assign_all in Hin. destruct Hin as [[]|Hin].
      unfold sanitized_items in Hin. apply in_map_iff in Hin.
      destruct Hin as [kv0 [<- Hin]]. simpl.
      rewrite Forall_forall in IH. now apply IH.
Qed.

Lemma sanitize_clean_keys (v : pyval) :
  clean_keys (sanitized v) = true.
Proof.
  induction v as [| | | | |items IH|fields IH] using pyval_ind; trivial.
  - simpl. rewrite forallb_Forall, Forall_map. exact IH.
  - rewrite sanitize_dict. simpl.
    apply forallb_forall. intros kv Hin.
    apply In_assign_all in Hin. destruct Hin as [[]|Hin].
    unfold sanitized_items in Hin. apply in_map_iff in Hin.
    destruct Hin as [kv0 [<- Hin]]. simpl.
    rewrite clean_new_key. rewrite Forall_forall in IH. now apply IH.
Qed.


Lemma is_dict_sanitize (v : pyval) :
  is_dict (sanitized v) = is_dict v.
Proof. destruct v; reflexivity. Qed.








Example sanitize_colliding_record :
  sanitized colliding_record =
  PyDict [("a_b", PyInt 2); ("c", PyInt 3)].
Proof. reflexivity. Qed.

(** ** The sanitizer and the stack *)

Lemma list_max_In (l : list nat) (n : nat) : In n l -> n <= list_max l.
Proof.
  intros Hin. pose proof (proj1 (list_max_le l (list_max l)) (le_n _)) as H.
  rewrite Forall_forall in H. auto.
Qed.

Lemma map_result_ok {A B : Type} (f : A -> result B) (g : A -> B)
    (l : list A) :
  (forall x, In x l -> f x = Ok (g x)) -> map_result f l = Ok (map g l).
Proof.
  induction l as [|x l IH]; intros H; simpl; trivial.
  rewrite (H x) by now left. rewrite IH; trivial.
  intros y Hy. apply H. now right.
Qed.

Lemma map_result_ok_inv {A B : Type} (f : A -> result B) (l : list A)
    (r : list B) :
  map_result f l = Ok r -> forall x, In x l -> exists y, f x = Ok y.
Proof.
  revert r. induction l as [|a l IH]; intros r H x Hin; [destruct Hin|].
  simpl in H. destruct (f a) as [y|e] eqn:Ea; try discriminate.
  destruct (map_result f l) as [ys|e] eqn:El; try discriminate.
  destruct Hin as [<-|Hin]; eauto.
Qed.

Lemma map_result_raise {A B : Type} (f : A -> result B) (l : list A)
    (e : exn) :
  map_result f l = Raise e -> exists x, In x l /\ f x = Raise e.
Proof.
  induction l as [|a l IH]; simpl; try discriminate.
  destruct (f a) as [y|e'] eqn:Ea.
  - destruct (map_result f l) as [ys|e'] eqn:El; try discriminate.
    intros [= <-]. destruct (IH eq_refl) as (x & Hin & Hx). eauto.
  - intros [= <-]. eauto.
Qed.

Lemma sanitize_loop_raised (f : pyval -> result pyval)
    (fields : list (string * pyval)) (e : exn) :
  sanitize_loop f fields (Raise e) = Raise e.
Proof. induction fields as [|kv fields IH]; simpl; trivial. Qed.

Lemma sanitize_loop_cons (f : pyval -> result pyval) (a : string * pyval)
    (fields new : list (string * pyval)) :
  sanitize_loop f (a :: fields) (Ok new) =
  sanitize_loop f fields
    match f (snd a) with
    | Ok v => Ok (dict_set new (new_key (fst a)) v)
    | Raise e => Raise e
    end.
Proof. reflexivity. Qed.

Lemma sanitize_loop_ok (f : pyval -> result pyval) (g : pyval -> pyval)
    (fields new : list (string * pyval)) :
  (forall kv, In kv fields -> f (snd kv) = Ok (g (snd kv))) ->
  sanitize_loop f fields (Ok new) =
  Ok (assign_all (map (fun kv => (new_key (fst kv), g (snd kv))) fields) new).
Proof.
  revert new. induction fields as [|kv fields IH]; intros new H; trivial.
  rewrite sanitize_loop_cons, (H kv) by now left.
  rewrite IH; [reflexivity|]. intros x Hx. apply H. now right.
Qed.

Lemma sanitize_loop_ok_inv (f : pyval -> result pyval)
    (fields new r : list (string * pyval)) :
  sanitize_loop f fields (Ok new) = Ok r ->
  forall kv, In kv fields -> exists v, f (snd kv) = Ok v.
Proof.
  revert new. induction fields as [|a fields IH]; intros new H kv Hin;
    [destruct Hin|].
  rewrite sanitize_loop_cons in H.
  destruct (f (snd a)) as [v|e] eqn:Ea.
  - destruct Hin as [<-|Hin]; eauto.
  - rewrite sanitize_loop_raised in H. discriminate.
Qed.

Lemma sanitize_loop_raise (f : pyval -> result pyval)
    (fields new : list (string * pyval)) (e : exn) :
  sanitize_loop f fields (Ok new) = Raise e ->
  exists kv, In kv fields /\ f (snd kv) = Raise e.
Proof.
  revert new. induction fields as [|a fields IH]; intros new H;
    [discriminate|].
  rewrite sanitize_loop_cons in H.
  destruct (f (snd a)) as [v|e'] eqn:Ea.
  - destruct (IH _ H) as (kv & Hin & Hkv). exists kv. split; auto. now right.
  - rewrite sanitize_loop_raised in H. injection H as <-.
    exists a. split; auto. now left.
Qed.

Lemma sanitize_for_mongo_S (h lc : bool) (room : nat) (obj : pyval) :
  sanitize_for_mongo h lc (S room) obj =
  if h && Nat.eqb room 0 then
    Raise (recursion_error " while calling a Python object")
  else
    match obj with
    | PyDict fields =>
        match sanitize_loop (sanitize_for_mongo h lc room) fields (Ok []) with
        | Ok new => Ok (PyDict new)
        | Raise e => Raise e
        end
    | PyList items =>
        if lc then
          match room with
          | 0 => Raise (recursion_error "")
          | S inner =>
              match map_result (sanitize_for_mongo h lc inner) items with
              | Ok l => Ok (PyList l)
              | Raise e => Raise e
              end
          end
        else
          match map_result (sanitize_for_mongo h lc room) items with
          | Ok l => Ok (PyList l)
          | Raise e => Raise e
          end
    | _ => Ok obj
    end.
Proof. reflexivity. Qed.

Lemma need_positive (h lc : bool) (v : pyval) : Nat.b2n h < stack_need h lc v.
Proof. destruct v; cbn [stack_need]; lia. Qed.

Lemma builtin_call_fits (h : bool) (room : nat) :
  Nat.b2n h <= room ->
  h && Nat.eqb room 0 = false.
Proof. destruct h, room; simpl; trivial; lia. Qed.

Lemma builtin_call_fits_inv (h : bool) (room : nat) :
  h && Nat.eqb room 0 = false ->
  Nat.b2n h <= room.
Proof. destruct h, room; simpl; try discriminate; lia. Qed.

(** With room for its recursion, the call returns the sanitized value. *)
Lemma sanitize_for_mongo_fits (h lc : bool) (v : pyval) :
  forall frames, stack_need h lc v <= frames -> sanitize_for_mongo h lc frames v = Ok (sanitized v).
Proof.
  induction v as [| | | | |items IH|fields IH] using pyval_ind;
    intros [|room] Hfit; cbn [stack_need] in Hfit; try lia;
    rewrite sanitize_for_mongo_S, builtin_call_fits by lia; trivial.
  - rewrite Forall_forall in IH.
    assert (Hin : forall x, In x items -> stack_need h lc x + Nat.b2n lc <= room).
    { intros x Hx.
      pose proof (list_max_In _ _ (in_map (stack_need h lc) _ _ Hx)). lia. }
    destruct lc; cbn [Nat.b2n] in Hin, Hfit.
    + destruct room as [|inner]; [lia|].
      rewrite (map_result_ok _ sanitized); trivial.
      intros x Hx. apply IH; trivial. specialize (Hin x Hx). lia.
    + rewrite (map_result_ok _ sanitized); trivial.
      intros x Hx. apply IH; trivial. specialize (Hin x Hx). lia.
  - rewrite Forall_forall in IH.
    rewrite (sanitize_loop_ok _ sanitized).
    + now rewrite sanitize_dict.
    + intros kv Hkv. apply IH; trivial.
      pose proof (list_max_In _ _
                    (in_map (fun kv => stack_need h lc (snd kv)) _ _ Hkv)).
      simpl in *. lia.
Qed.

(** A call that returns had room for its recursion. *)
Lemma sanitize_for_mongo_ok_fits (h lc : bool) (v : pyval) :
  forall frames r, sanitize_for_mongo h lc frames v = Ok r -> stack_need h lc v <= frames.
Proof.
  induction v as [| | | | |items IH|fields IH] using pyval_ind;
    intros [|room] r; try discriminate;
    rewrite sanitize_for_mongo_S;
    destruct (h && Nat.eqb room 0) eqn:Hb; try discriminate;
    apply builtin_call_fits_inv in Hb; cbn [stack_need]; try lia.
  - rewrite Forall_forall in IH. intros H.
    assert (Hmax : forall inner,
               (forall x, In x items -> exists y, sanitize_for_mongo h lc inner x = Ok y) ->
               list_max (map (stack_need h lc) items) <= inner).
    { intros inner Hall. apply list_max_le, Forall_forall.
      intros n Hn. apply in_map_iff in Hn. destruct Hn as (x & <- & Hx).
      destruct (Hall x Hx) as (y & Hy). eapply IH; eauto. }
    destruct lc; simpl.
    + destruct room as [|inner]; try discriminate.
      destruct (map_result _ items) eqn:Em; try discriminate.
      pose proof (Hmax inner (map_result_ok_inv _ _ Em)). lia.
    + destruct (map_result _ items) eqn:Em; try discriminate.
      pose proof (Hmax room (map_result_ok_inv _ _ Em)). lia.
  - rewrite Forall_forall in IH. intros H.
    destruct (sanitize_loop _ fields (Ok [])) eqn:El;
      try discriminate.
    assert (list_max (map (fun kv => stack_need h lc (snd kv)) fields) <= room).
    { apply list_max_le, Forall_forall.
      intros n Hn. apply in_map_iff in Hn. destruct Hn as (kv & <- & Hkv).
      destruct (sanitize_loop_ok_inv _ _ _ El kv Hkv) as (y & Hy).
      eapply IH; eauto. }
    lia.
Qed.

(** Nothing but the recursion limit makes the call raise. *)
Lemma sanitize_for_mongo_raises (h lc : bool) (v : pyval) :
  forall frames e, sanitize_for_mongo h lc frames v = Raise e -> exn_cls e = RecursionError.
Proof.
  induction v as [| | | | |items IH|fields IH] using pyval_ind;
    intros [|room] e; try (intros [= <-]; reflexivity);
    rewrite sanitize_for_mongo_S;
    destruct (h && Nat.eqb room 0);
    try (intros [= <-]; reflexivity); try discriminate.
  - rewrite Forall_forall in IH.
    destruct lc.
    + destruct room as [|inner]; [intros [= <-]; reflexivity|].
      destruct (map_result _ items) eqn:Em; try discriminate.
      intros [= <-]. apply map_result_raise in Em.
      destruct Em as (x & Hx & Hr). eapply IH; eauto.
    + destruct (map_result _ items) eqn:Em; try discriminate.
      intros [= <-]. apply map_result_raise in Em.
      destruct Em as (x & Hx & Hr). eapply IH; eauto.
  - rewrite Forall_forall in IH.
    destruct (sanitize_loop _ fields (Ok [])) eqn:El;
      try discriminate.
    intros [= <-]. apply sanitize_loop_raise in El.
    destruct El as (kv & Hkv & Hr). eapply IH; eauto.
Qed.

(** So the call returns the sanitized value where the stack has room, and
    raises [RecursionError] where it has not. *)
Lemma sanitize_for_mongo_ok_value (h lc : bool) (v r : pyval) (frames : nat) :
  sanitize_for_mongo h lc frames v = Ok r -> r = sanitized v.
Proof.
  intros H.
  assert (Hfit : stack_need h lc v <= frames)
    by (eapply sanitize_for_mongo_ok_fits; eauto).
  rewrite sanitize_for_mongo_fits in H by exact Hfit. now injection H.
Qed.

Lemma sanitize_for_mongo_overflows (h lc : bool) (v : pyval) (frames : nat) :
  frames < stack_need h lc v ->
  exists e, sanitize_for_mongo h lc frames v = Raise e /\ exn_cls e = RecursionError.
Proof.
  intros Hlt. destruct (sanitize_for_mongo h lc frames v) as [r|e] eqn:E.
  - assert (stack_need h lc v <= frames)
      by (eapply sanitize_for_mongo_ok_fits; eauto).
    lia.
  - exists e. split; trivial. eapply sanitize_for_mongo_raises; eauto.
Qed.


(** ** The text of a timestamp *)



Example isoformat_sample :
  isoformat (mkDatetime 2024 3 9 7 5 0 42) = "2024-03-09T07:05:00.000042+00:00"
  /\ isoformat (mkDatetime 987 12 31 23 59 59 0) = "0987-12-31T23:59:59+00:00".
Proof. split; reflexivity. Qed.

(** ** The sanitizer: what it rewrites *)







(** ** Running the steps *)

Ltac step :=
  unfold bind, ret, raise, emit, lift, lift_result, check, logger_info,
    logger_warning, logger_exception, now_isoformat, try_except; simpl.



Section Steps.
Variable w : world.

Lemma sanitize_in_transform (v : pyval) :
  fits w v = true ->
  sanitize_for_mongo (builtin_frame w) (listcomp_frame w) (frames_left w) v
  = Ok (sanitized v).
Proof.
  unfold fits. intros H. apply Nat.leb_le in H.
  now apply sanitize_for_mongo_fits.
Qed.

Lemma sanitize_in_transform_overflows (v : pyval) :
  fits w v = false ->
  exists e,
    sanitize_for_mongo (builtin_frame w) (listcomp_frame w) (frames_left w) v
    = Raise e
    /\ exn_cls e = RecursionError.
Proof.
  unfold fits. intros H. apply Nat.leb_gt in H.
  now apply sanitize_for_mongo_overflows.
Qed.

(** A string has room wherever [transform] runs. *)
Lemma fits_leaf (v : pyval) :
  is_dict v = false -> is_list v = false -> fits w v = true.
Proof.
  intros Hd Hl. unfold fits, frames_left. apply Nat.leb_le.
  destruct v; try discriminate; simpl; destruct (builtin_frame w); simpl; lia.
Qed.

Lemma transform_loop_cons (item : pyval) (rest docs : list pyval) (s : state) :
  transform_loop w (item :: rest) docs s =
  match
    sanitize_for_mongo (builtin_frame w) (listcomp_frame w) (frames_left w)
      item
  with
  | Ok doc =>
      match
        py_setitem doc "ingested_at"
          (PyStr (utcnow_isoformat w (clock_reads s)))
          (mkState (trace s) (S (clock_reads s)))
      with
      | (Ok doc', s') => transform_loop w rest (docs ++ [doc'])%list s'
      | (Raise e, s') => (Raise e, s')
      end
  | Raise e => (Raise e, s)
  end.
Proof.
  cbn [transform_loop]. unfold bind, lift_result, now_isoformat.
  destruct (sanitize_for_mongo (builtin_frame w) (listcomp_frame w)
              (frames_left w) item); reflexivity.
Qed.

Lemma py_setitem_dict (d : list (string * pyval)) (k : string) (v : pyval)
    (s : state) :
  py_setitem (PyDict d) k v s = (Ok (PyDict (dict_set d k v)), s).
Proof. reflexivity. Qed.

Lemma py_setitem_non_dict (doc : pyval) (k : string) (v : pyval) (s : state) :
  is_dict doc = false ->
  exists e, py_setitem doc k v s = (Raise e, s) /\ exn_cls e = TypeError.
Proof.
  intros Hd. destruct doc; try discriminate; simpl; eexists;
    split; reflexivity.
Qed.

Lemma transform_loop_ok (items : list pyval) :
  forallb is_dict items = true ->
  forallb (fits w) items = true ->
  forall docs s,
    transform_loop w items docs s =
    (Ok (docs ++ stamp_from (utcnow_isoformat w) (clock_reads s) items)%list,
     mkState (trace s) (clock_reads s + List.length items)).
Proof.
  induction items as [|item rest IH]; intros Hall Hfit docs s.
  - simpl. step. rewrite app_nil_r, Nat.add_0_r. now destruct s.
  - simpl in Hall, Hfit. apply andb_true_iff in Hall, Hfit.
    destruct Hall as [Hd Hrest], Hfit as [Hf Hfrest].
    rewrite transform_loop_cons, sanitize_in_transform by exact Hf.
    unfold stamp. simpl stamp_from. unfold stamp.
    rewrite <- is_dict_sanitize in Hd.
    destruct (sanitized item) as [| | | | | |d]; try discriminate.
    rewrite py_setitem_dict, (IH Hrest Hfrest). simpl.
    now rewrite <- app_assoc, Nat.add_succ_r.
Qed.

Lemma transform_loop_raises (items : list pyval) :
  forallb (fun x => is_dict x && fits w x) items = false ->
  forall docs s, exists e n,
    transform_loop w items docs s =
    (Raise e, mkState (trace s) (clock_reads s + n))
    /\ (exn_cls e = TypeError \/ exn_cls e = RecursionError)
    /\ n <= List.length items.
Proof.
  induction items as [|item rest IH]; intros Hall docs s; simpl in Hall.
  - discriminate.
  - rewrite transform_loop_cons.
    destruct (fits w item) eqn:Hf.
    + rewrite sanitize_in_transform by exact Hf.
      destruct (is_dict item) eqn:Hd.
      * rewrite <- is_dict_sanitize in Hd.
        destruct (sanitized item) as [| | | | | |d]; try discriminate.
        rewrite py_setitem_dict. simpl in Hall.
        destruct (IH Hall
                    (docs ++ [PyDict
                                (dict_set d "ingested_at"
                                   (PyStr (utcnow_isoformat w (clock_reads s))))])%list
                    (mkState (trace s) (S (clock_reads s))))
          as (e & n & Hrun & Hcls & Hn).
        exists e, (S n). rewrite Hrun. simpl.
        rewrite Nat.add_succ_r. repeat split; trivial; lia.
      * rewrite <- is_dict_sanitize in Hd.
        destruct (py_setitem_non_dict (sanitized item) "ingested_at"
                    (PyStr (utcnow_isoformat w (clock_reads s)))
                    (mkState (trace s) (S (clock_reads s))) Hd)
          as (e & Hset & Hcls).
        rewrite Hset. exists e, 1. rewrite Nat.add_1_r.
        repeat split; auto. simpl. lia.
    + destruct (sanitize_in_transform_overflows item Hf) as (e & Hr & Hcls).
      rewrite Hr. exists e, 0. rewrite Nat.add_0_r.
      destruct s. repeat split; auto. lia.
Qed.

Lemma transform_loop_trace (items docs : list pyval) (s : state) :
  trace (snd (transform_loop w items docs s)) = trace s.
Proof.
  revert docs s. induction items as [|item rest IH]; intros docs s.
  - reflexivity.
  - rewrite transform_loop_cons.
    destruct (sanitize_for_mongo _ _ _ item) as [doc|e]; trivial.
    destruct doc; simpl; trivial. now rewrite IH.
Qed.

Lemma extract_state (url : option string) (s : state) :
  snd (extract w url s) =
  mkState (trace s ++ extract_events url) (clock_reads s).
Proof.
  unfold extract, raise_for_status, extract_events. step.
  rewrite <- app_assoc. simpl.
  destruct (requests_get w url 30) as [e|resp]; simpl; trivial.
  destruct ((400 <=? status_code resp)%Z && (status_code resp <? 500)%Z);
    simpl; trivial;
    destruct ((500 <=? status_code resp)%Z && (status_code resp <? 600)%Z);
    simpl; trivial;
    destruct (resp_json resp); trivial.
Qed.

Lemma transform_trace (raw : pyval) (s : state) :
  trace (snd (transform w raw s)) =
  (trace s ++ [EvLog INFO "Transforming data..." None])%list.
Proof.
  unfold transform. step.
  destruct raw; simpl; trivial.
  destruct (dict_get_default fields "vulnerabilities" (PyList []));
    simpl; trivial; now rewrite transform_loop_trace.
Qed.
End Steps.

Lemma well_formed_dict_set (d : list (string * pyval)) (k : string) (v : pyval) :
  well_formed (PyDict d) = true -> well_formed v = true ->
  well_formed (PyDict (dict_set d k v)) = true.
Proof.
  simpl. rewrite !andb_true_iff, !nodup_keys_NoDup, !forallb_forall.
  intros [Hnd Hall] Hv. split.
  - change (map fst ?x) with (keys x). rewrite keys_dict_set.
    now apply NoDup_add_key.
  - intros kv Hin. apply In_dict_set in Hin. destruct Hin as [->|Hin]; auto.
Qed.

Lemma clean_keys_dict_set (d : list (string * pyval)) (k : string) (v : pyval) :
  clean_keys (PyDict d) = true -> clean_key k = true -> clean_keys v = true ->
  clean_keys (PyDict (dict_set d k v)) = true.
Proof.
  simpl. rewrite !forallb_forall. intros Hall Hk Hv kv Hin.
  apply In_dict_set in Hin. destruct Hin as [->|Hin]; auto.
  simpl. now rewrite Hk, Hv.
Qed.

Lemma sanitized_doc_stamp (ts : string) (item : pyval) :
  is_dict item = true -> sanitized_doc (stamp ts item) = true.
Proof.
  intros Hd. unfold stamp.
  pose proof (sanitize_well_formed item) as Hwf.
  pose proof (sanitize_clean_keys item) as Hcl.
  rewrite <- is_dict_sanitize in Hd.
  destruct (sanitized item) as [| | | | | |d]; try discriminate.
  unfold sanitized_doc.
  rewrite well_formed_dict_set, clean_keys_dict_set; trivial.
Qed.


(** ** The transformer *)




(** C3. For an input mapping without a ["vulnerabilities"] field,
    [transform] takes the payload to be the empty sequence: it returns the
    empty list, raises nothing, reads no clock and only logs its start. *)
Theorem transform_without_vulnerabilities
    (w : world) (fields : list (string * pyval)) (s : state) :
  dict_get fields "vulnerabilities" = None ->
  transform w (PyDict fields) s =
  (Ok [],
   mkState (trace s ++ [EvLog INFO "Transforming data..." None])
     (clock_reads s)).
Proof.
  intros Hget. unfold transform. step.
  unfold dict_get_default. now rewrite Hget.
Qed.

Lemma transform_without_vulnerabilities_witness :
  transform (sample_world env_with_store 200 "OK" empty_feed)
    empty_feed initial =
  (Ok [], mkState [EvLog INFO "Transforming data..." None] 0).
Proof.
  apply (@transform_without_vulnerabilities
           (sample_world env_with_store 200 "OK" empty_feed)
           [("title", PyStr "KEV")] initial).
  reflexivity.
Defined.





(** ** The sanitizer: applying it again *)




(** ** The loader and the orchestrator *)

Section Run.
Variable w : world.

Lemma load_to_mongo_unconfigured (docs : list pyval) (s : state) :
  env_truthy (MONGO_URI w) = false ->
  load_to_mongo w docs s = (Raise config_error, s).
Proof. intros H. unfold load_to_mongo. now rewrite H. Qed.

Lemma run_body_fetch_raises (s s1 : state) (e : exn) :
  extract w (CISA_KEV_URL w) s = (Raise e, s1) ->
  run_body w s = (Raise e, s1).
Proof. intros H. unfold run_body, bind. now rewrite H. Qed.

Lemma run_body_transform_raises (s s1 s2 : state) (raw : pyval) (e : exn) :
  extract w (CISA_KEV_URL w) s = (Ok raw, s1) ->
  transform w raw s1 = (Raise e, s2) ->
  run_body w s = (Raise e, s2).
Proof. intros H1 H2. unfold run_body, bind. now rewrite H1, H2. Qed.

Lemma run_body_load_raises (s s1 s2 s3 : state) (raw : pyval)
    (docs : list pyval) (e : exn) :
  extract w (CISA_KEV_URL w) s = (Ok raw, s1) ->
  transform w raw s1 = (Ok docs, s2) ->
  load_to_mongo w docs s2 = (Raise e, s3) ->
  run_body w s = (Raise e, s3).
Proof.
  intros H1 H2 H3. unfold run_body, bind. now rewrite H1, H2, H3.
Qed.

Lemma run_catches (s s1 : state) (e : exn) :
  run_body w s = (Raise e, s1) ->
  is_Exception e = true ->
  run w s = (Ok PyNone, failed e s1).
Proof.
  intros Hbody He. unfold run, try_except. rewrite Hbody, He. reflexivity.
Qed.

Lemma run_passes_on (s s1 : state) (e : exn) :
  run_body w s = (Raise e, s1) ->
  is_Exception e = false ->
  run w s = (Raise e, s1).
Proof.
  intros Hbody He. unfold run, try_except. now rewrite Hbody, He.
Qed.

Lemma extract_result (s s1 : state) (r : result pyval) :
  extract w (CISA_KEV_URL w) s = (r, s1) ->
  s1 = mkState (trace s ++ extract_events (CISA_KEV_URL w)) (clock_reads s).
Proof.
  intros H. rewrite <- (@extract_state w (CISA_KEV_URL w) s).
  now rewrite H.
Qed.
End Run.

Lemma terminal_state_failed (e : exn) (s : state) :
  terminal_state (trace (failed e s)) = Some (FAILED e).
Proof.
  unfold terminal_state, failed. simpl. now rewrite rev_unit.
Qed.

Lemma run_unconfigured_events (w : world) (s : state) :
  env_truthy (MONGO_URI w) = false ->
  exists evs,
    trace (snd (run w s)) =
    (trace s ++ extract_events (CISA_KEV_URL w) ++ evs)%list
    /\ existsb is_store_call evs = false.
Proof.
  intros Hcfg.
  destruct (extract w (CISA_KEV_URL w) s) as [[raw|e] s1] eqn:E;
    pose proof (extract_result _ _ E) as Hs1.
  - pose proof (transform_trace w raw s1) as Ht.
    destruct (transform w raw s1) as [[docs|e] s2] eqn:T; simpl in Ht.
    + erewrite run_catches;
        [|eapply run_body_load_raises; eauto using load_to_mongo_unconfigured
         |reflexivity].
      exists [transform_log; failure_log config_error]. simpl.
      rewrite Ht, Hs1. simpl. rewrite <- !app_assoc. now split.
    + destruct (is_Exception e) eqn:He.
      * erewrite run_catches; [|eapply run_body_transform_raises; eauto|trivial].
        exists [transform_log; failure_log e]. simpl.
        rewrite Ht, Hs1. simpl. rewrite <- !app_assoc. now split.
      * erewrite run_passes_on;
          [|eapply run_body_transform_raises; eauto|trivial].
        exists [transform_log]. simpl.
        rewrite Ht, Hs1. simpl. rewrite <- !app_assoc. now split.
  - destruct (is_Exception e) eqn:He.
    + erewrite run_catches; [|eapply run_body_fetch_raises; eauto|trivial].
      exists [failure_log e]. simpl. rewrite Hs1. simpl.
      rewrite <- !app_assoc. now split.
    + erewrite run_passes_on; [|eapply run_body_fetch_raises; eauto|trivial].
      exists []. simpl. rewrite Hs1. simpl. now split.
Qed.

Lemma extract_http_error (w : world) (url : option string) (s : state)
    (resp : response) :
  requests_get w url 30 = inr resp ->
  (400 <= status_code resp < 600)%Z ->
  exists e,
    extract w url s =
    (Raise e, mkState (trace s ++ extract_events url) (clock_reads s))
    /\ exn_cls e = HTTPError.
Proof.
  intros Hget Hstatus. unfold extract, raise_for_status, extract_events. step.
  rewrite Hget, <- app_assoc. simpl.
  destruct (Z.leb_spec 400 (status_code resp)); [|lia].
  destruct (Z.ltb_spec (status_code resp) 500); simpl; [eauto|].
  destruct (Z.leb_spec 500 (status_code resp)); [|lia].
  destruct (Z.ltb_spec (status_code resp) 600); simpl; [eauto|lia].
Qed.

(** ** The loader *)

(** C4, as the code has it.  Given an empty list of documents, a
    connection string that is set, and client and collection handles that
    open without error, the loader makes no insert call, logs one warning
    and returns normally -- with [None]: the loader returns no count, for an
    empty batch or any other. *)
Theorem load_to_mongo_empty_batch (w : world) (s : state) :
  env_truthy (MONGO_URI w) = true ->
  MongoClient w (str_of_env (MONGO_URI w)) = None ->
  get_collection w (MONGO_DB w) (MONGO_COLLECTION w) = None ->
  let evs := [EvMongoClient (str_of_env (MONGO_URI w));
              EvLog WARNING "No documents to insert." None] in
  load_to_mongo w [] s =
  (Ok PyNone, mkState (trace s ++ evs) (clock_reads s))
  /\ existsb is_insert evs = false
  /\ existsb is_warning evs = true.
Proof.
  intros Hcfg Hclient Hcoll evs. repeat split.
  unfold load_to_mongo. rewrite Hcfg. step.
  rewrite Hclient. simpl. rewrite Hcoll. simpl.
  now rewrite <- app_assoc.
Qed.

Lemma load_to_mongo_empty_batch_witness :
  load_to_mongo (sample_world env_with_store 200 "OK" sample_feed) []
    initial =
  (Ok PyNone,
   mkState [EvMongoClient "mongodb://localhost:27017";
            EvLog WARNING "No documents to insert." None] 0).
Proof.
  apply (@load_to_mongo_empty_batch
           (sample_world env_with_store 200 "OK" sample_feed) initial);
    reflexivity.
Defined.

(** C4, as the specification has it, fails: with the connection string set
    and an empty batch the loader returns [None], which is not the count
    [0]. *)
Lemma empty_batch_returns_no_count :
  env_truthy (MONGO_URI (sample_world env_with_store 200 "OK" sample_feed))
  = true
  /\ fst (load_to_mongo (sample_world env_with_store 200 "OK" sample_feed)
            [] initial) = Ok PyNone
  /\ fst (load_to_mongo (sample_world env_with_store 200 "OK" sample_feed)
            [] initial) <> Ok (PyInt 0).
Proof.
  repeat split. discriminate.
Qed.

(** C5. Without a connection string (unset or empty) the loader raises its
    configuration error for every batch, before it opens a client or
    inserts anything; nothing checks the setting earlier, so a run still
    fetches, still transforms what it fetched, and then fails in the
    loader: the documents are dropped and the store is never called. *)
Theorem load_to_mongo_requires_uri (w : world) :
  env_truthy (MONGO_URI w) = false ->
  (forall docs s, load_to_mongo w docs s = (Raise config_error, s))
  /\ (forall s, exists evs,
        trace (snd (run w s)) =
        (trace s ++ extract_events (CISA_KEV_URL w) ++ evs)%list
        /\ existsb is_store_call evs = false)
  /\ (forall s raw s1 docs s2,
        extract w (CISA_KEV_URL w) s = (Ok raw, s1) ->
        transform w raw s1 = (Ok docs, s2) ->
        run w s =
        (Ok PyNone,
         mkState
           (trace s ++ extract_events (CISA_KEV_URL w)
              ++ [transform_log; failure_log config_error])
           (clock_reads s2))).
Proof.
  intros Hcfg. split; [|split].
  - intros docs s. now apply load_to_mongo_unconfigured.
  - intros s. now apply run_unconfigured_events.
  - intros s raw s1 docs s2 E T.
    pose proof (extract_result _ _ E) as Hs1.
    pose proof (transform_trace w raw s1) as Ht. rewrite T in Ht. simpl in Ht.
    erewrite run_catches;
      [|eapply run_body_load_raises; eauto using load_to_mongo_unconfigured
       |reflexivity].
    unfold failed. rewrite Ht, Hs1. simpl. now rewrite <- !app_assoc.
Qed.

Lemma load_to_mongo_requires_uri_witness :
  load_to_mongo (sample_world env_without_store 200 "OK" sample_feed)
    [sample_record] initial = (Raise config_error, initial)
  /\ exists n,
      run (sample_world env_without_store 200 "OK" sample_feed) initial =
      (Ok PyNone,
       mkState
         [EvLog INFO "Extracting data from https://feed.example/kev.json" None;
          EvHttpGet (Some sample_url) 30;
          transform_log;
          failure_log config_error] n).
Proof.
  destruct (@load_to_mongo_requires_uri
              (sample_world env_without_store 200 "OK" sample_feed) eq_refl)
    as (Hload & _ & Hrun).
  split.
  - apply Hload.
  - exists 2.
    apply (Hrun initial sample_feed
             (mkState (extract_events (Some sample_url)) 0)
             (stamp_from sample_clock 0 [sample_record; stamped_record])
             (mkState (extract_events (Some sample_url) ++ [transform_log]) 2));
      vm_compute; reflexivity.
Defined.

(** ** The orchestrator *)

Lemma run_body_returns_None (w : world) (s s1 : state) (r : pyval) :
  run_body w s = (Ok r, s1) -> r = PyNone.
Proof.
  unfold run_body, bind.
  destruct (extract w (CISA_KEV_URL w) s) as [[raw|e] s0]; try discriminate.
  destruct (transform w raw s0) as [[docs|e] s2]; try discriminate.
  destruct (load_to_mongo w docs s2) as [[x|e] s3]; try discriminate.
  step. now intros [= <- _].
Qed.

(** C6. An error raised by the fetch, the transform or the load step -- the
    configuration error, an HTTP or network error, a JSON decoding error,
    an error of the store client, a type or attribute error, each of them
    an [Exception] -- is caught in [run]: [run] logs it at level ERROR with
    the exception attached and returns normally; it re-raises nothing. *)
Theorem run_swallows_errors :
  (forall e,
      In (exn_cls e)
        [RuntimeError; HTTPError; RequestException; JSONDecodeError;
         PyMongoError; TypeError; AttributeError] ->
      is_Exception e = true)
  /\ (forall w s e,
      is_Exception e = true ->
      (forall s1,
          extract w (CISA_KEV_URL w) s = (Raise e, s1) ->
          run w s = (Ok PyNone, failed e s1))
      /\ (forall raw s1 s2,
          extract w (CISA_KEV_URL w) s = (Ok raw, s1) ->
          transform w raw s1 = (Raise e, s2) ->
          run w s = (Ok PyNone, failed e s2))
      /\ (forall raw s1 docs s2 s3,
          extract w (CISA_KEV_URL w) s = (Ok raw, s1) ->
          transform w raw s1 = (Ok docs, s2) ->
          load_to_mongo w docs s2 = (Raise e, s3) ->
          run w s = (Ok PyNone, failed e s3)))
  /\ (forall e s,
      trace (failed e s) =
      (trace s
         ++ [EvLog ERROR ("ETL process failed: " ++ exn_msg e) (Some e)])%list
      /\ terminal_state (trace (failed e s)) = Some (FAILED e))
  /\ (forall w s,
      (forall e s1, run_body w s = (Raise e, s1) -> is_Exception e = true) ->
      exists s', run w s = (Ok PyNone, s')).
Proof.
  split; [|split; [|split]].
  - intros [cls msg]. simpl. unfold is_Exception. simpl.
    intros [<-|[<-|[<-|[<-|[<-|[<-|[<-|[]]]]]]]]; reflexivity.
  - intros w s e He. split; [|split].
    + intros s1 E. apply run_catches; trivial.
      now apply run_body_fetch_raises.
    + intros raw s1 s2 E T. apply run_catches; trivial.
      now apply run_body_transform_raises with (s1 := s1) (raw := raw).
    + intros raw s1 docs s2 s3 E T L. apply run_catches; trivial.
      now apply run_body_load_raises
        with (s1 := s1) (s2 := s2) (raw := raw) (docs := docs).
  - intros e s. split; [reflexivity|apply terminal_state_failed].
  - intros w s Hall.
    destruct (run_body w s) as [[r|e] s1] eqn:B.
    + exists s1. unfold run, try_except. rewrite B.
      now rewrite (run_body_returns_None _ _ B).
    + exists (failed e s1). apply run_catches; trivial. eapply Hall; eauto.
Qed.

Lemma run_swallows_errors_witness :
  run broken_feed_world initial =
  (Ok PyNone,
   failed server_error
     (mkState (extract_events (Some sample_url)) 0)).
Proof.
  destruct run_swallows_errors as (_ & Hrun & _).
  destruct (Hrun broken_feed_world initial server_error eq_refl)
    as (Hfetch & _).
  apply Hfetch. reflexivity.
Defined.

(** C7. When the fetch step fails -- as it does when the response has a
    4xx or 5xx status, 500 for one -- the run ends in FAILED: after the
    request the only thing [run] does is log the failure; [transform] is
    not entered and neither the store client nor the insert is called. *)
Theorem run_stops_at_failed_fetch (w : world) (s : state) :
  (forall resp,
      requests_get w (CISA_KEV_URL w) 30 = inr resp ->
      (400 <= status_code resp < 600)%Z ->
      exists e,
        extract w (CISA_KEV_URL w) s =
        (Raise e,
         mkState (trace s ++ extract_events (CISA_KEV_URL w)) (clock_reads s))
        /\ exn_cls e = HTTPError /\ is_Exception e = true)
  /\ (forall e s1,
      extract w (CISA_KEV_URL w) s = (Raise e, s1) ->
      (exists evs,
          trace (snd (run w s)) = (trace s ++ evs)%list
          /\ existsb is_store_call evs = false
          /\ existsb (is_log_info "Transforming data...") evs = false)
      /\ (is_Exception e = true ->
          run w s =
          (Ok PyNone,
           mkState
             (trace s ++ extract_events (CISA_KEV_URL w) ++ [failure_log e])
             (clock_reads s))
          /\ terminal_state (trace (snd (run w s))) = Some (FAILED e))).
Proof.
  split.
  - intros resp Hget Hstatus.
    destruct (extract_http_error w _ s Hget Hstatus) as (e & Hrun & Hcls).
    exists e. repeat split; trivial. unfold is_Exception. now rewrite Hcls.
  - intros e s1 E. pose proof (extract_result _ _ E) as Hs1.
    assert (Hcaught : is_Exception e = true ->
                      run w s =
                      (Ok PyNone,
                       mkState
                         (trace s ++ extract_events (CISA_KEV_URL w)
                            ++ [failure_log e])
                         (clock_reads s))).
    { intros He. erewrite run_catches;
        [|eapply run_body_fetch_raises; eauto|trivial].
      unfold failed. rewrite Hs1. simpl. now rewrite <- app_assoc. }
    split.
    + destruct (is_Exception e) eqn:He.
      * rewrite (Hcaught eq_refl). simpl.
        exists (extract_events (CISA_KEV_URL w) ++ [failure_log e])%list.
        now repeat split.
      * erewrite run_passes_on; [|eapply run_body_fetch_raises; eauto|trivial].
        rewrite Hs1. simpl. exists (extract_events (CISA_KEV_URL w)).
        now repeat split.
    + intros He. split; [now apply Hcaught|].
      erewrite run_catches; [|eapply run_body_fetch_raises; eauto|trivial].
      apply terminal_state_failed.
Qed.

Lemma run_stops_at_failed_fetch_witness :
  terminal_state (trace (snd (run broken_feed_world initial)))
  = Some (FAILED server_error)
  /\ existsb is_store_call (trace (snd (run broken_feed_world initial)))
     = false.
Proof.
  destruct (run_stops_at_failed_fetch broken_feed_world initial)
    as (Hstatus & Hrun).
  destruct (Hstatus (mkResponse 500 "Internal Server Error" sample_url
                       (inr sample_feed)))
    as (e & Hextract & _); [reflexivity|simpl; lia|].
  destruct (Hrun e _ Hextract) as (_ & Hfailed).
  split.
  - injection Hextract as <-. now apply Hfailed.
  - reflexivity.
Defined.

Example run_sample_world :
  trace (snd (run (sample_world env_with_store 200 "OK" sample_feed) initial))
  = [EvLog INFO "Extracting data from https://feed.example/kev.json" None;
     EvHttpGet (Some sample_url) 30;
     transform_log;
     EvMongoClient "mongodb://localhost:27017";
     EvInsertMany "etl_db" "cisa_kev"
       [PyDict [("cve_id", PyStr "CVE-2024-0001");
                ("notes", PyDict [("a_b_c", PyInt 1)]);
                ("ingested_at", PyStr "2024-01-01T00:00:00+00:00")];
        PyDict [("cveID", PyStr "CVE-2023-9999");
                ("ingested_at", PyStr "2024-01-01T00:00:01+00:00")]];
     EvLog INFO "Inserted 2 documents into etl_db.cisa_kev" None;
     EvLog INFO "ETL process completed successfully." None].
Proof. reflexivity. Qed.

(** * Further properties of the connector *)

(** ** Keys *)

Lemma rewrite_char_eq (c1 c2 : ascii) :
  rewrite_char c1 = rewrite_char c2 <->
  (Ascii.eqb c1 c2 || underscore_like c1 && underscore_like c2) = true.
Proof.
  unfold rewrite_char, underscore_like.
  destruct (Ascii.eqb_spec c1 c2) as [->|Hne].
  - simpl. split; trivial.
  - destruct (Ascii.eqb_spec c1 "."), (Ascii.eqb_spec c1 "$"),
      (Ascii.eqb_spec c1 "_"), (Ascii.eqb_spec c2 "."),
      (Ascii.eqb_spec c2 "$"), (Ascii.eqb_spec c2 "_");
      subst; simpl; split; intros H; trivial;
        try discriminate; try congruence.
Qed.

Lemma new_key_eq (k1 k2 : string) :
  new_key k1 = new_key k2 <-> same_up_to_rewriting k1 k2 = true.
Proof.
  revert k2. induction k1 as [|c1 r1 IH]; intros [|c2 r2]; simpl.
  - split; trivial.
  - rewrite new_key_String. split; discriminate.
  - rewrite new_key_String. split; discriminate.
  - rewrite !new_key_String, andb_true_iff, <- rewrite_char_eq, <- IH.
    split.
    + intros [= H1 H2]. now split.
    + intros [H1 H2]. now rewrite H1, H2.
Qed.

(** X1. Two keys are rewritten to the same key exactly when they have the
    same length and differ only at positions where each has one of ['.'],
    ['$'] and ['_']; so a key already written with ['_'] collides with its
    dotted spelling. *)
Theorem new_key_collisions :
  (forall k1 k2,
      new_key k1 = new_key k2 <-> same_up_to_rewriting k1 k2 = true)
  /\ new_key "a.b" = new_key "a_b"
  /\ new_key "a$b" = new_key "a.b"
  /\ new_key "a.b" <> new_key "ab".
Proof.
  split; [exact new_key_eq|].
  repeat split. discriminate.
Qed.

Lemma new_key_collisions_witness :
  new_key "cve.id" = new_key "cve$id".
Proof.
  destruct new_key_collisions as (H & _).
  apply (proj2 (H "cve.id" "cve$id")). reflexivity.
Defined.

(** X2. The keys the rewriting leaves alone are exactly the keys without
    ['.'] and ['$']; every rewritten key is such a key, so rewriting twice
    is rewriting once. *)
Theorem new_key_fixed_points :
  (forall k, new_key k = k <-> clean_key k = true)
  /\ (forall k, clean_key (new_key k) = true)
  /\ (forall k, new_key (new_key k) = new_key k).
Proof.
  split; [|split].
  - intros k. split.
    + intros H. rewrite <- H. apply clean_new_key.
    + apply new_key_clean.
  - apply clean_new_key.
  - intros k. apply new_key_clean, clean_new_key.
Qed.

Lemma new_key_fixed_points_witness :
  new_key "vendorProject" = "vendorProject".
Proof.
  destruct new_key_fixed_points as (H & _).
  apply (proj2 (H "vendorProject")). reflexivity.
Defined.

(** ** The sanitizer *)

(** X3. Whatever the input, in the value [sanitize_for_mongo] returns no
    key at any depth contains ['.'] or ['$'], and every dictionary at any
    depth holds each key once -- also where keys collided. *)
Theorem sanitize_for_mongo_output_clean :
  (forall v,
      clean_keys (sanitized v) = true /\ well_formed (sanitized v) = true)
  /\ (forall h lc frames v v',
      sanitize_for_mongo h lc frames v = Ok v' ->
      v' = sanitized v /\ clean_keys v' = true /\ well_formed v' = true).
Proof.
  split.
  - intros v. split; [apply sanitize_clean_keys|apply sanitize_well_formed].
  - intros h lc frames v v' Hok.
    apply sanitize_for_mongo_ok_value in Hok. subst v'.
    repeat split; [apply sanitize_clean_keys|apply sanitize_well_formed].
Qed.

Lemma sanitize_for_mongo_output_clean_witness :
  clean_keys (PyDict [("a_b", PyInt 2); ("c", PyInt 3)]) = true
  /\ well_formed (PyDict [("a_b", PyInt 2); ("c", PyInt 3)]) = true.
Proof.
  apply (proj2 sanitize_for_mongo_output_clean true true 990
           colliding_record).
  vm_compute. reflexivity.
Defined.



(** ** The transformer *)

Lemma transform_loop_ok_inv (w : world) (items acc docs : list pyval)
    (s s' : state) :
  transform_loop w items acc s = (Ok docs, s') ->
  forallb is_dict items = true /\ forallb (fits w) items = true.
Proof.
  intros H.
  destruct (forallb (fun x => is_dict x && fits w x) items) eqn:E.
  - rewrite forallb_forall in E.
    split; apply forallb_forall; intros x Hx; specialize (E x Hx);
      apply andb_true_iff in E; tauto.
  - destruct (transform_loop_raises w items E acc s) as (e & n & Hr & _).
    rewrite Hr in H. discriminate.
Qed.


Lemma In_stamp_from (clock : nat -> string) (items : list pyval) (n : nat)
    (doc : pyval) :
  In doc (stamp_from clock n items) ->
  exists item i, In item items /\ doc = stamp (clock i) item.
Proof.
  revert n. induction items as [|item rest IH]; intros n; simpl.
  - intros [].
  - intros [<-|Hin].
    + exists item, n. auto.
    + destruct (IH _ Hin) as (x & i & Hx & ->). exists x, i. auto.
Qed.

Lemma stamp_has_ingested_at (ts : string) (item : pyval) :
  is_dict item = true ->
  exists d,
    stamp ts item = PyDict d /\ dict_get d "ingested_at" = Some (PyStr ts).
Proof.
  intros Hd. unfold stamp. rewrite <- is_dict_sanitize in Hd.
  destruct (sanitized item) as [| | | | | |d]; try discriminate.
  eexists. split; [reflexivity|].
  rewrite dict_get_set. now rewrite String.eqb_refl.
Qed.

(** What a returning [transform] was given and what it returns. *)
Lemma transform_ok_inv (w : world) (raw : pyval) (docs : list pyval)
    (s s' : state) :
  transform w raw s = (Ok docs, s') ->
  exists items,
    forallb is_dict items = true
    /\ forallb (fits w) items = true
    /\ docs = stamp_from (utcnow_isoformat w) (clock_reads s) items
    /\ s' = mkState (trace s ++ [transform_log])
              (clock_reads s + List.length items).
Proof.
  unfold transform, transform_log. step.
  destruct raw as [| | | | | |fields]; simpl; try discriminate.
  destruct (dict_get_default fields "vulnerabilities" (PyList []))
    as [| | | |str|items|d]; simpl; try discriminate; intros H;
    destruct (transform_loop_ok_inv _ _ _ _ H) as (Hall & Hfit);
    rewrite (transform_loop_ok w _ Hall Hfit) in H; simpl in H;
    injection H as <- <-; eexists; repeat split; eauto.
Qed.

(** X5. A payload that is not a mapping -- a JSON array, string, number,
    boolean or null -- makes [transform] raise [AttributeError] right after
    it logged its start: no clock is read and nothing is returned. *)
Theorem transform_rejects_non_mapping_payload
    (w : world) (raw : pyval) (s : state) :
  is_dict raw = false ->
  exists e,
    transform w raw s =
    (Raise e, mkState (trace s ++ [transform_log]) (clock_reads s))
    /\ exn_cls e = AttributeError.
Proof.
  intros Hd. unfold transform, transform_log. step.
  destruct raw; simpl; try discriminate; eauto.
Qed.

Lemma transform_rejects_non_mapping_payload_witness :
  exists e,
    transform (sample_world env_with_store 200 "OK" sample_feed)
      (PyList [sample_record]) initial =
    (Raise e, mkState [transform_log] 0)
    /\ exn_cls e = AttributeError.
Proof.
  apply (@transform_rejects_non_mapping_payload
           (sample_world env_with_store 200 "OK" sample_feed)
           (PyList [sample_record]) initial).
  reflexivity.
Defined.

(** X6. Only an absent ["vulnerabilities"] field counts as empty.  A field
    that is present and holds null, a boolean or a number makes
    [transform] raise [TypeError] before any clock reading; an empty
    mapping or an empty string under the field gives the empty list; a
    mapping or string that is not empty makes [transform] raise [TypeError]
    at its first item, after one clock reading. *)
Theorem transform_field_not_a_list
    (w : world) (fields : list (string * pyval)) (v : pyval) (s : state) :
  dict_get fields "vulnerabilities" = Some v ->
  (In (type_name v) ["NoneType"; "bool"; "int"; "float"] ->
   exists e,
     transform w (PyDict fields) s =
     (Raise e, mkState (trace s ++ [transform_log]) (clock_reads s))
     /\ exn_cls e = TypeError)
  /\ (v = PyDict [] \/ v = PyStr "" ->
      transform w (PyDict fields) s =
      (Ok [], mkState (trace s ++ [transform_log]) (clock_reads s)))
  /\ ((exists k x d, v = PyDict ((k, x) :: d))
      \/ (exists c r, v = PyStr (String c r)) ->
      exists e,
        transform w (PyDict fields) s =
        (Raise e, mkState (trace s ++ [transform_log]) (S (clock_reads s)))
        /\ exn_cls e = TypeError).
Proof.
  intros Hget.
  assert (Hrun : transform w (PyDict fields) s =
                 bind (py_iter v) (fun items => transform_loop w items [])
                   (mkState (trace s ++ [transform_log]) (clock_reads s))).
  { unfold transform, transform_log, py_get, dict_get_default.
    rewrite Hget. reflexivity. }
  rewrite Hrun. split; [|split].
  - intros Hty. destruct v; simpl in Hty;
      try (eexists; split; reflexivity);
      exfalso; intuition discriminate.
  - intros [->| ->]; reflexivity.
  - intros [(k & x & d & ->)|(c & r & ->)];
      step; destruct (builtin_frame w); simpl; step;
      eexists; split; reflexivity.
Qed.

Lemma transform_field_not_a_list_witness :
  exists e,
    transform (sample_world env_with_store 200 "OK" sample_feed)
      (PyDict [("vulnerabilities", PyNone)]) initial =
    (Raise e, mkState [transform_log] 0)
    /\ exn_cls e = TypeError.
Proof.
  destruct (@transform_field_not_a_list
              (sample_world env_with_store 200 "OK" sample_feed)
              [("vulnerabilities", PyNone)] PyNone initial eq_refl)
    as (Hnull & _).
  apply Hnull. simpl. auto.
Defined.





(** X9. Every document [transform] returns is a dictionary that holds each
    key once and no key with ['.'] or ['$'] at any depth, and carries a
    string under [ingested_at]. *)
Theorem transform_returns_sanitized_documents
    (w : world) (raw : pyval) (s s' : state) (docs : list pyval) :
  transform w raw s = (Ok docs, s') ->
  forall doc,
    In doc docs ->
    sanitized_doc doc = true
    /\ exists d ts,
        doc = PyDict d /\ dict_get d "ingested_at" = Some (PyStr ts).
Proof.
  intros Hrun doc Hin.
  destruct (transform_ok_inv _ _ _ Hrun) as (items & Hall & _ & -> & _).
  destruct (In_stamp_from _ _ _ _ Hin) as (item & i & Hitem & ->).
  rewrite forallb_forall in Hall. specialize (Hall _ Hitem).
  split.
  - now apply sanitized_doc_stamp.
  - destruct (stamp_has_ingested_at (utcnow_isoformat w i) item Hall)
      as (d & Hd & Hts).
    eauto.
Qed.

Lemma transform_returns_sanitized_documents_witness :
  sanitized_doc
    (PyDict [("cve_id", PyStr "CVE-2024-0001");
             ("notes", PyDict [("a_b_c", PyInt 1)]);
             ("ingested_at", PyStr "2024-01-01T00:00:00+00:00")]) = true.
Proof.
  refine (proj1
            (@transform_returns_sanitized_documents
               (sample_world env_with_store 200 "OK" sample_feed)
               sample_feed initial (mkState [transform_log] 2)
               (stamp_from sample_clock 0 [sample_record; stamped_record])
               _ _ _)).
  - reflexivity.
  - left. reflexivity.
Defined.

(** ** The fetcher *)

(** X10. A response whose status is below 400 or from 600 on is taken as
    a success, whatever the status: [extract] returns the parsed body as it
    is, after one log line and one GET with timeout 30. *)
Theorem extract_returns_parsed_body
    (w : world) (url : option string) (s : state) (resp : response)
    (body : pyval) :
  requests_get w url 30 = inr resp ->
  (status_code resp < 400 \/ 600 <= status_code resp)%Z ->
  resp_json resp = inr body ->
  extract w url s =
  (Ok body,
   mkState
     (trace s ++ [EvLog INFO ("Extracting data from " ++ str_of_env url) None;
                  EvHttpGet url 30])
     (clock_reads s)).
Proof.
  intros Hget Hstatus Hjson. unfold extract, raise_for_status. step.
  rewrite Hget, <- app_assoc. simpl.
  destruct (Z.leb_spec 400 (status_code resp)),
    (Z.ltb_spec (status_code resp) 500),
    (Z.leb_spec 500 (status_code resp)),
    (Z.ltb_spec (status_code resp) 600); simpl; try lia;
    now rewrite Hjson.
Qed.

Lemma extract_returns_parsed_body_witness :
  extract (sample_world env_with_store 302 "Found" sample_feed)
    (Some sample_url) initial =
  (Ok sample_feed, mkState (extract_events (Some sample_url)) 0).
Proof.
  apply (@extract_returns_parsed_body
           (sample_world env_with_store 302 "Found" sample_feed)
           (Some sample_url) initial
           (mkResponse 302 "Found" sample_url (inr sample_feed))
           sample_feed).
  - reflexivity.
  - simpl. lia.
  - reflexivity.
Defined.

(** X11. [extract] passes on the error of the request, and the error of the
    body decoder, as it got it; and whatever happens it has logged one line
    and made one GET with timeout 30 -- there is no second attempt -- and
    has not read the clock. *)
Theorem extract_propagates_errors
    (w : world) (url : option string) (s : state) :
  let after :=
    mkState
      (trace s ++ [EvLog INFO ("Extracting data from " ++ str_of_env url) None;
                   EvHttpGet url 30])
      (clock_reads s) in
  (forall e, requests_get w url 30 = inl e -> extract w url s = (Raise e, after))
  /\ (forall resp e,
      requests_get w url 30 = inr resp ->
      (status_code resp < 400 \/ 600 <= status_code resp)%Z ->
      resp_json resp = inl e ->
      extract w url s = (Raise e, after))
  /\ snd (extract w url s) = after.
Proof.
  intros after. split; [|split].
  - intros e Hget. unfold extract. step. rewrite Hget. simpl.
    unfold after. now rewrite <- app_assoc.
  - intros resp e Hget Hstatus Hjson. unfold extract, raise_for_status. step.
    rewrite Hget. unfold after. rewrite <- app_assoc. simpl.
    destruct (Z.leb_spec 400 (status_code resp)),
      (Z.ltb_spec (status_code resp) 500),
      (Z.leb_spec 500 (status_code resp)),
      (Z.ltb_spec (status_code resp) 600); simpl; try lia;
      now rewrite Hjson.
  - apply extract_state.
Qed.

Lemma extract_propagates_errors_witness :
  extract interrupted_world (Some sample_url) initial =
  (Raise interrupt, mkState (extract_events (Some sample_url)) 0).
Proof.
  destruct (extract_propagates_errors interrupted_world (Some sample_url)
              initial) as (Hreq & _).
  apply Hreq. reflexivity.
Defined.

(** ** The loader *)

Lemma load_to_mongo_state (w : world) (docs : list pyval) (s : state) :
  snd (load_to_mongo w docs s) =
  mkState (trace s ++ load_events w docs) (clock_reads s).
Proof.
  unfold load_to_mongo, load_events.
  destruct (env_truthy (MONGO_URI w)); simpl.
  - step.
    destruct (MongoClient w (str_of_env (MONGO_URI w))); simpl; trivial.
    destruct (get_collection w (MONGO_DB w) (MONGO_COLLECTION w));
      simpl; trivial.
    destruct docs as [|doc docs]; simpl.
    + now rewrite <- app_assoc.
    + destruct (insert_many w (MONGO_DB w) (MONGO_COLLECTION w) (doc :: docs));
        simpl; rewrite <- !app_assoc; reflexivity.
  - rewrite app_nil_r. now destruct s.
Qed.

Lemma load_to_mongo_inserts (w : world) (doc : pyval) (docs : list pyval)
    (n : nat) (s : state) :
  env_truthy (MONGO_URI w) = true ->
  MongoClient w (str_of_env (MONGO_URI w)) = None ->
  get_collection w (MONGO_DB w) (MONGO_COLLECTION w) = None ->
  insert_many w (MONGO_DB w) (MONGO_COLLECTION w) (doc :: docs) = inr n ->
  load_to_mongo w (doc :: docs) s =
  (Ok PyNone,
   mkState
     (trace s ++ [EvMongoClient (str_of_env (MONGO_URI w));
                  EvInsertMany (MONGO_DB w) (MONGO_COLLECTION w) (doc :: docs);
                  inserted_log w n])
     (clock_reads s)).
Proof.
  intros Hcfg Hclient Hcoll Hins. unfold load_to_mongo, inserted_log.
  rewrite Hcfg. step. rewrite Hclient. simpl. rewrite Hcoll. simpl.
  rewrite Hins. simpl. now rewrite <- !app_assoc.
Qed.

(** X12. With the connection string set, the handles open and a batch that
    is not empty, the loader makes one [insert_many] call with the whole
    batch, in the order given, on the configured database and collection;
    it logs the number of ids the store reports -- not the length of the
    batch -- and returns [None]. *)
Theorem load_to_mongo_inserts_batch
    (w : world) (doc : pyval) (docs : list pyval) (n : nat) (s : state) :
  env_truthy (MONGO_URI w) = true ->
  MongoClient w (str_of_env (MONGO_URI w)) = None ->
  get_collection w (MONGO_DB w) (MONGO_COLLECTION w) = None ->
  insert_many w (MONGO_DB w) (MONGO_COLLECTION w) (doc :: docs) = inr n ->
  load_to_mongo w (doc :: docs) s =
  (Ok PyNone,
   mkState
     (trace s
        ++ [EvMongoClient (str_of_env (MONGO_URI w));
            EvInsertMany (MONGO_DB w) (MONGO_COLLECTION w) (doc :: docs);
            EvLog INFO
              ("Inserted " ++ str_of_nat n ++ " documents into "
                 ++ MONGO_DB w ++ "." ++ MONGO_COLLECTION w) None])
     (clock_reads s)).
Proof. apply load_to_mongo_inserts. Qed.

Lemma load_to_mongo_inserts_batch_witness :
  load_to_mongo (sample_world env_with_store 200 "OK" sample_feed)
    [sample_record; stamped_record] initial =
  (Ok PyNone,
   mkState
     [EvMongoClient "mongodb://localhost:27017";
      EvInsertMany "etl_db" "cisa_kev" [sample_record; stamped_record];
      EvLog INFO "Inserted 2 documents into etl_db.cisa_kev" None] 0).
Proof.
  apply (@load_to_mongo_inserts_batch
           (sample_world env_with_store 200 "OK" sample_feed)
           sample_record [stamped_record] 2 initial); reflexivity.
Defined.

(** X13. An error of the store client leaves the loader as it came: when
    the client refuses the connection string the loader raises that error
    with no insert attempted, also for an empty batch; when the insert
    fails it raises that error after the one insert call and logs no
    count. *)
Theorem load_to_mongo_propagates_store_errors
    (w : world) (docs : list pyval) (s : state) (e : exn) :
  env_truthy (MONGO_URI w) = true ->
  (MongoClient w (str_of_env (MONGO_URI w)) = Some e ->
   load_to_mongo w docs s =
   (Raise e,
    mkState (trace s ++ [EvMongoClient (str_of_env (MONGO_URI w))])
      (clock_reads s)))
  /\ (MongoClient w (str_of_env (MONGO_URI w)) = None ->
      get_collection w (MONGO_DB w) (MONGO_COLLECTION w) = None ->
      docs <> [] ->
      insert_many w (MONGO_DB w) (MONGO_COLLECTION w) docs = inl e ->
      load_to_mongo w docs s =
      (Raise e,
       mkState
         (trace s
            ++ [EvMongoClient (str_of_env (MONGO_URI w));
                EvInsertMany (MONGO_DB w) (MONGO_COLLECTION w) docs])
         (clock_reads s))).
Proof.
  intros Hcfg. split.
  - intros Hclient. unfold load_to_mongo. rewrite Hcfg. step.
    now rewrite Hclient.
  - intros Hclient Hcoll Hdocs Hins. unfold load_to_mongo.
    rewrite Hcfg. step. rewrite Hclient. simpl. rewrite Hcoll. simpl.
    destruct docs as [|doc docs]; [now elim Hdocs|].
    step. rewrite Hins. simpl. now rewrite <- app_assoc.
Qed.

Lemma load_to_mongo_propagates_store_errors_witness :
  load_to_mongo rejecting_client_world [] initial =
  (Raise uri_error, mkState [EvMongoClient "mongodb://localhost:27017"] 0)
  /\ load_to_mongo rejecting_store_world [sample_record] initial =
     (Raise store_error,
      mkState [EvMongoClient "mongodb://localhost:27017";
               EvInsertMany "etl_db" "cisa_kev" [sample_record]] 0).
Proof.
  split.
  - apply (proj1 (@load_to_mongo_propagates_store_errors
                    rejecting_client_world [] initial uri_error eq_refl)).
    reflexivity.
  - apply (proj2 (@load_to_mongo_propagates_store_errors
                    rejecting_store_world [sample_record] initial
                    store_error eq_refl));
      try reflexivity. discriminate.
Defined.

(** X14. With [MONGO_DB] and [MONGO_COLLECTION] unset a batch goes to
    collection [cisa_kev] of database [etl_db]; and a connection string
    that is set to the empty string counts as missing: the loader raises
    its configuration error and opens no client. *)
Theorem load_to_mongo_default_target (w : world) :
  (forall doc docs n s,
      env_truthy (MONGO_URI w) = true ->
      environ w "MONGO_DB" = None ->
      environ w "MONGO_COLLECTION" = None ->
      MongoClient w (str_of_env (MONGO_URI w)) = None ->
      get_collection w "etl_db" "cisa_kev" = None ->
      insert_many w "etl_db" "cisa_kev" (doc :: docs) = inr n ->
      load_to_mongo w (doc :: docs) s =
      (Ok PyNone,
       mkState
         (trace s
            ++ [EvMongoClient (str_of_env (MONGO_URI w));
                EvInsertMany "etl_db" "cisa_kev" (doc :: docs);
                EvLog INFO
                  ("Inserted " ++ str_of_nat n
                     ++ " documents into etl_db.cisa_kev") None])
         (clock_reads s)))
  /\ (environ w "MONGO_URI" = Some "" ->
      forall docs s, load_to_mongo w docs s = (Raise config_error, s)).
Proof.
  split.
  - intros doc docs n s Hcfg Hdb Hcoll Hclient Hget Hins.
    assert (Edb : MONGO_DB w = "etl_db").
    { unfold MONGO_DB, getenv_default. now rewrite Hdb. }
    assert (Ecoll : MONGO_COLLECTION w = "cisa_kev").
    { unfold MONGO_COLLECTION, getenv_default. now rewrite Hcoll. }
    rewrite (@load_to_mongo_inserts w doc docs n s); trivial.
    + unfold inserted_log. now rewrite Edb, Ecoll.
    + now rewrite Edb, Ecoll.
    + now rewrite Edb, Ecoll.
  - intros H docs s. apply load_to_mongo_unconfigured.
    unfold MONGO_URI, getenv. now rewrite H.
Qed.

Lemma load_to_mongo_default_target_witness :
  load_to_mongo (sample_world env_with_store 200 "OK" sample_feed)
    [sample_record] initial =
  (Ok PyNone,
   mkState
     [EvMongoClient "mongodb://localhost:27017";
      EvInsertMany "etl_db" "cisa_kev" [sample_record];
      EvLog INFO "Inserted 1 documents into etl_db.cisa_kev" None] 0).
Proof.
  apply (proj1 (load_to_mongo_default_target
                  (sample_world env_with_store 200 "OK" sample_feed))
           sample_record [] 1 initial); reflexivity.
Defined.

(** ** A whole run *)

Lemma run_returns (w : world) (s s1 : state) (r : pyval) :
  run_body w s = (Ok r, s1) -> run w s = (Ok r, s1).
Proof. intros H. unfold run, try_except. now rewrite H. Qed.

Lemma run_body_completes (w : world) (s s1 s2 s3 : state) (raw r : pyval)
    (docs : list pyval) :
  extract w (CISA_KEV_URL w) s = (Ok raw, s1) ->
  transform w raw s1 = (Ok docs, s2) ->
  load_to_mongo w docs s2 = (Ok r, s3) ->
  run_body w s =
  (Ok PyNone, mkState (trace s3 ++ [completed_log]) (clock_reads s3)).
Proof.
  intros H1 H2 H3. unfold run_body, bind. now rewrite H1, H2, H3.
Qed.

Lemma terminal_state_last (t : list event) (x : event) :
  terminal_state (t ++ [x]) = terminal_state [x].
Proof. unfold terminal_state. now rewrite rev_unit. Qed.

(** The events of a run past the request: nothing, or the failure line;
    or the start of the transform, alone or with the failure line; or
    that, what the loader did, and at most one closing line. *)
Lemma run_trace (w : world) (s : state) :
  exists evs,
    trace (snd (run w s)) =
    (trace s ++ extract_events (CISA_KEV_URL w) ++ evs)%list
    /\ ((evs = [] \/ exists e, evs = [failure_log e])
        \/ (evs = [transform_log]
            \/ exists e, evs = [transform_log; failure_log e])
        \/ exists raw s1 docs s2 tail,
            extract w (CISA_KEV_URL w) s = (Ok raw, s1)
            /\ transform w raw s1 = (Ok docs, s2)
            /\ evs = (transform_log :: load_events w docs ++ tail)%list
            /\ (tail = [] \/ (exists e, tail = [failure_log e])
                \/ tail = [completed_log])).
Proof.
  destruct (extract w (CISA_KEV_URL w) s) as [[raw|e] s1] eqn:E;
    pose proof (extract_result _ _ E) as Hs1.
  - pose proof (transform_trace w raw s1) as Ht.
    destruct (transform w raw s1) as [[docs|e] s2] eqn:T; simpl in Ht.
    + pose proof (load_to_mongo_state w docs s2) as Hl.
      assert (Hs3 : forall tail,
                 ((trace s2 ++ load_events w docs) ++ tail)%list =
                 (trace s ++ extract_events (CISA_KEV_URL w)
                    ++ transform_log :: load_events w docs ++ tail)%list).
      { intros tail. rewrite Ht, Hs1. simpl. rewrite <- !app_assoc.
        reflexivity. }
      destruct (load_to_mongo w docs s2) as [[r|e] s3] eqn:L; simpl in Hl.
      * erewrite run_returns; [|eapply run_body_completes; eauto].
        exists (transform_log :: load_events w docs ++ [completed_log])%list.
        simpl. rewrite Hl. simpl. split; [apply Hs3|].
        right. right. exists raw, s1, docs, s2, [completed_log].
        repeat split; auto.
      * destruct (is_Exception e) eqn:He.
        -- erewrite run_catches; [|eapply run_body_load_raises; eauto|trivial].
           exists (transform_log :: load_events w docs ++ [failure_log e])%list.
           simpl. rewrite Hl. simpl. split; [apply Hs3|].
           right. right. exists raw, s1, docs, s2, [failure_log e].
           repeat split; eauto.
        -- erewrite run_passes_on;
             [|eapply run_body_load_raises; eauto|trivial].
           exists (transform_log :: load_events w docs)%list.
           simpl. rewrite Hl. simpl. split.
           ++ pose proof (Hs3 []) as H0. rewrite !app_nil_r in H0. exact H0.
           ++ right. right. exists raw, s1, docs, s2, [].
              rewrite app_nil_r. repeat split; auto.
    + destruct (is_Exception e) eqn:He.
      * erewrite run_catches; [|eapply run_body_transform_raises; eauto|trivial].
        exists [transform_log; failure_log e]. simpl.
        rewrite Ht, Hs1. simpl. rewrite <- !app_assoc. split; eauto.
      * erewrite run_passes_on;
          [|eapply run_body_transform_raises; eauto|trivial].
        exists [transform_log]. simpl.
        rewrite Ht, Hs1. simpl. rewrite <- !app_assoc. split; auto.
  - destruct (is_Exception e) eqn:He.
    + erewrite run_catches; [|eapply run_body_fetch_raises; eauto|trivial].
      exists [failure_log e]. simpl. rewrite Hs1. simpl.
      rewrite <- !app_assoc. split; eauto.
    + erewrite run_passes_on; [|eapply run_body_fetch_raises; eauto|trivial].
      exists []. simpl. rewrite Hs1. simpl. split; auto.
Qed.

Lemma load_events_counts (w : world) (docs : list pyval) :
  filter is_http_get (load_events w docs) = []
  /\ filter is_failure_log (load_events w docs) = []
  /\ List.length (filter is_client (load_events w docs)) <= 1
  /\ List.length (filter is_insert (load_events w docs)) <= 1.
Proof.
  unfold load_events, warning_log, inserted_log.
  destruct (env_truthy (MONGO_URI w)); simpl; auto.
  destruct (MongoClient w (str_of_env (MONGO_URI w))); simpl; auto.
  destruct (get_collection w (MONGO_DB w) (MONGO_COLLECTION w)); simpl; auto.
  destruct docs as [|doc docs]; simpl; auto.
  destruct (insert_many w (MONGO_DB w) (MONGO_COLLECTION w) (doc :: docs));
    simpl; auto.
Qed.

Lemma In_insert_load_events (w : world) (docs batch : list pyval)
    (db coll : string) :
  In (EvInsertMany db coll batch) (load_events w docs) ->
  db = MONGO_DB w /\ coll = MONGO_COLLECTION w /\ batch = docs /\ docs <> [].
Proof.
  unfold load_events, warning_log, inserted_log.
  destruct (env_truthy (MONGO_URI w)); simpl; [|tauto].
  destruct (MongoClient w (str_of_env (MONGO_URI w))); simpl;
    [intuition discriminate|].
  destruct (get_collection w (MONGO_DB w) (MONGO_COLLECTION w)); simpl;
    [intuition discriminate|].
  destruct docs as [|doc docs]; simpl; [intuition discriminate|].
  destruct (insert_many w (MONGO_DB w) (MONGO_COLLECTION w) (doc :: docs));
    simpl; intros H;
    repeat (destruct H as [H|H]; try discriminate H; try contradiction);
    injection H as <- <- <-; repeat split; discriminate.
Qed.

Lemma transform_ok_sanitized (w : world) (raw : pyval) (docs : list pyval)
    (s s' : state) :
  transform w raw s = (Ok docs, s') -> forallb sanitized_doc docs = true.
Proof.
  intros H. destruct (transform_ok_inv _ _ _ H) as (items & Hall & _ & -> & _).
  apply forallb_forall. intros doc Hin.
  destruct (In_stamp_from _ _ _ _ Hin) as (item & i & Hitem & ->).
  apply sanitized_doc_stamp. rewrite forallb_forall in Hall. auto.
Qed.

(** X15. When the three steps succeed on a batch that is not empty, [run]
    does, in this order and nothing else: the fetch log and the GET, the
    transform log, the client, one insert of exactly the documents
    [transform] returned, the count log and the success log; it returns
    [None] and ends in DONE. *)
Theorem run_completes
    (w : world) (s s1 s2 : state) (raw doc : pyval) (docs : list pyval)
    (n : nat) :
  extract w (CISA_KEV_URL w) s = (Ok raw, s1) ->
  transform w raw s1 = (Ok (doc :: docs), s2) ->
  env_truthy (MONGO_URI w) = true ->
  MongoClient w (str_of_env (MONGO_URI w)) = None ->
  get_collection w (MONGO_DB w) (MONGO_COLLECTION w) = None ->
  insert_many w (MONGO_DB w) (MONGO_COLLECTION w) (doc :: docs) = inr n ->
  run w s =
  (Ok PyNone,
   mkState
     (trace s ++ extract_events (CISA_KEV_URL w)
        ++ [transform_log;
            EvMongoClient (str_of_env (MONGO_URI w));
            EvInsertMany (MONGO_DB w) (MONGO_COLLECTION w) (doc :: docs);
            inserted_log w n;
            completed_log])
     (clock_reads s2))
  /\ terminal_state (trace (snd (run w s))) = Some DONE.
Proof.
  intros E T Hcfg Hclient Hcoll Hins.
  pose proof (extract_result _ _ E) as Hs1.
  pose proof (transform_trace w raw s1) as Ht. rewrite T in Ht. simpl in Ht.
  pose proof (load_to_mongo_inserts w doc docs s2 Hcfg Hclient Hcoll Hins)
    as L.
  erewrite run_returns; [|eapply run_body_completes; eauto].
  simpl. split.
  - rewrite Ht, Hs1. simpl. now rewrite <- !app_assoc.
  - now rewrite terminal_state_last.
Qed.

Lemma run_completes_witness :
  terminal_state
    (trace (snd (run (sample_world env_with_store 200 "OK" sample_feed)
                   initial)))
  = Some DONE.
Proof.
  refine (proj2
            (@run_completes
               (sample_world env_with_store 200 "OK" sample_feed)
               initial
               (mkState (extract_events (Some sample_url)) 0)
               (mkState (extract_events (Some sample_url) ++ [transform_log]) 2)
               sample_feed
               (stamp (sample_clock 0) sample_record)
               [stamp (sample_clock 1) stamped_record]
               2 _ _ _ _ _ _)); reflexivity.
Defined.

(** X16. A feed without records still ends in DONE: when [transform]
    returns the empty list and the store is configured, [run] opens the
    client, inserts nothing, logs the warning and then logs success. *)
Theorem run_completes_on_empty_feed
    (w : world) (s s1 s2 : state) (raw : pyval) :
  extract w (CISA_KEV_URL w) s = (Ok raw, s1) ->
  transform w raw s1 = (Ok [], s2) ->
  env_truthy (MONGO_URI w) = true ->
  MongoClient w (str_of_env (MONGO_URI w)) = None ->
  get_collection w (MONGO_DB w) (MONGO_COLLECTION w) = None ->
  run w s =
  (Ok PyNone,
   mkState
     (trace s ++ extract_events (CISA_KEV_URL w)
        ++ [transform_log;
            EvMongoClient (str_of_env (MONGO_URI w));
            EvLog WARNING "No documents to insert." None;
            EvLog INFO "ETL process completed successfully." None])
     (clock_reads s2))
  /\ terminal_state (trace (snd (run w s))) = Some DONE.
Proof.
  intros E T Hcfg Hclient Hcoll.
  pose proof (extract_result _ _ E) as Hs1.
  pose proof (transform_trace w raw s1) as Ht. rewrite T in Ht. simpl in Ht.
  assert (L : load_to_mongo w [] s2 =
              (Ok PyNone,
               mkState
                 (trace s2 ++ [EvMongoClient (str_of_env (MONGO_URI w));
                               warning_log])
                 (clock_reads s2))).
  { unfold load_to_mongo, warning_log. rewrite Hcfg. step.
    rewrite Hclient. simpl. rewrite Hcoll. simpl.
    now rewrite <- app_assoc. }
  erewrite run_returns; [|eapply run_body_completes; eauto].
  simpl. split.
  - rewrite Ht, Hs1. simpl. now rewrite <- !app_assoc.
  - now rewrite terminal_state_last.
Qed.

Lemma run_completes_on_empty_feed_witness :
  trace (snd (run (sample_world env_with_store 200 "OK" empty_feed) initial))
  = [EvLog INFO "Extracting data from https://feed.example/kev.json" None;
     EvHttpGet (Some sample_url) 30;
     transform_log;
     EvMongoClient "mongodb://localhost:27017";
     EvLog WARNING "No documents to insert." None;
     EvLog INFO "ETL process completed successfully." None].
Proof.
  refine (f_equal (fun r => trace (snd r))
            (proj1
               (@run_completes_on_empty_feed
                  (sample_world env_with_store 200 "OK" empty_feed)
                  initial
                  (mkState (extract_events (Some sample_url)) 0)
                  (mkState (extract_events (Some sample_url)
                              ++ [transform_log]) 0)
                  empty_feed _ _ _ _ _))); reflexivity.
Defined.

(** X17. A run never repeats a step: whatever the feed and the store
    answer, it makes exactly one GET, opens at most one client, makes at
    most one insert call and logs at most one failure. *)
Theorem run_never_retries (w : world) (s : state) :
  exists evs,
    trace (snd (run w s)) = (trace s ++ evs)%list
    /\ List.length (filter is_http_get evs) = 1
    /\ List.length (filter is_client evs) <= 1
    /\ List.length (filter is_insert evs) <= 1
    /\ List.length (filter is_failure_log evs) <= 1.
Proof.
  destruct (run_trace w s) as (evs & Ht & Hc).
  exists (extract_events (CISA_KEV_URL w) ++ evs)%list.
  split; [exact Ht|].
  rewrite !filter_app, !length_app.
  unfold extract_events, transform_log, failure_log, completed_log in *.
  destruct Hc as [[->|(e & ->)]
                 |[[->|(e & ->)]
                  |(raw & s1 & docs & s2 & tail & _ & _ & -> & Htail)]];
    simpl; try lia.
  rewrite !filter_app, !length_app.
  destruct (load_events_counts w docs) as (H1 & H2 & H3 & H4).
  rewrite H1, H2.
  destruct Htail as [->|[(e & ->)| ->]]; simpl; lia.
Qed.

(** X18. Whatever a run hands to the store went through the sanitizer: an
    insert call of a run is made on the configured database and
    collection, with a batch that is not empty and consists of dictionaries
    whose keys, at every depth, are free of ['.'] and ['$']. *)
Theorem run_inserts_only_sanitized_documents (w : world) (s : state) :
  exists evs,
    trace (snd (run w s)) = (trace s ++ evs)%list
    /\ forall db coll batch,
        In (EvInsertMany db coll batch) evs ->
        db = MONGO_DB w /\ coll = MONGO_COLLECTION w
        /\ batch <> [] /\ forallb sanitized_doc batch = true.
Proof.
  destruct (run_trace w s) as (evs & Ht & Hc).
  exists (extract_events (CISA_KEV_URL w) ++ evs)%list.
  split; [exact Ht|].
  intros db coll batch Hin. apply in_app_or in Hin.
  unfold extract_events, transform_log, failure_log, completed_log in *.
  destruct Hin as [Hin|Hin]; [simpl in Hin; intuition discriminate|].
  destruct Hc as [[->|(e & ->)]
                 |[[->|(e & ->)]
                  |(raw & s1 & docs & s2 & tail & _ & T & -> & Htail)]];
    try (simpl in Hin; intuition discriminate).
  destruct Hin as [Hin|Hin]; [discriminate Hin|].
  apply in_app_or in Hin. destruct Hin as [Hin|Hin].
  - apply In_insert_load_events in Hin.
    destruct Hin as (-> & -> & -> & Hne).
    repeat split; trivial. eapply transform_ok_sanitized; eauto.
  - destruct Htail as [->|[(e & ->)| ->]];
      simpl in Hin; intuition discriminate.
Qed.

Lemma run_inserts_only_sanitized_documents_witness :
  forallb sanitized_doc
    [stamp (sample_clock 0) sample_record;
     stamp (sample_clock 1) stamped_record] = true.
Proof.
  destruct (run_inserts_only_sanitized_documents
              (sample_world env_with_store 200 "OK" sample_feed) initial)
    as (evs & Ht & Hin).
  simpl app in Ht.
  apply (Hin "etl_db" "cisa_kev"
           [stamp (sample_clock 0) sample_record;
            stamp (sample_clock 1) stamped_record]).
  rewrite <- Ht. do 4 right. left. reflexivity.
Defined.

(** X19. The handler of [run] catches [Exception] only: a
    [KeyboardInterrupt] or [SystemExit] that arrives during the fetch or
    the load leaves [run] as it came, and no failure line is logged. *)
Theorem run_lets_exit_signals_through (w : world) (s : state) (e : exn) :
  is_Exception e = false ->
  (exn_cls e = KeyboardInterrupt \/ exn_cls e = SystemExit)
  /\ (forall s1,
      extract w (CISA_KEV_URL w) s = (Raise e, s1) ->
      run w s =
      (Raise e,
       mkState (trace s ++ extract_events (CISA_KEV_URL w)) (clock_reads s)))
  /\ (forall raw s1 docs s2 s3,
      extract w (CISA_KEV_URL w) s = (Ok raw, s1) ->
      transform w raw s1 = (Ok docs, s2) ->
      load_to_mongo w docs s2 = (Raise e, s3) ->
      run w s = (Raise e, s3)
      /\ existsb is_failure_log (load_events w docs) = false).
Proof.
  intros He. split; [|split].
  - unfold is_Exception in He. destruct (exn_cls e); try discriminate; auto.
  - intros s1 E. rewrite <- (extract_result _ _ E).
    apply run_passes_on; trivial. now apply run_body_fetch_raises.
  - intros raw s1 docs s2 s3 E T L. split.
    + apply run_passes_on; trivial.
      now apply run_body_load_raises
        with (s1 := s1) (s2 := s2) (raw := raw) (docs := docs).
    + destruct (load_events_counts w docs) as (_ & H & _).
      destruct (existsb is_failure_log (load_events w docs)) eqn:Ex; trivial.
      apply existsb_exists in Ex. destruct Ex as (x & Hin & Hx).
      assert (Hf : In x (filter is_failure_log (load_events w docs)))
        by (apply filter_In; auto).
      rewrite H in Hf. destruct Hf.
Qed.

Lemma run_lets_exit_signals_through_witness :
  run interrupted_world initial =
  (Raise interrupt, mkState (extract_events (Some sample_url)) 0).
Proof.
  destruct (@run_lets_exit_signals_through interrupted_world initial
              interrupt eq_refl) as (_ & Hfetch & _).
  apply (Hfetch (mkState (extract_events (Some sample_url)) 0)).
  reflexivity.
Defined.

(** X21. A missing feed URL is not checked: with [CISA_KEV_URL] unset a
    run still logs ["Extracting data from None"] and calls the HTTP
    library with [None] as the URL; what follows is up to the library. *)
Theorem run_requests_unset_url (w : world) (s : state) :
  environ w "CISA_KEV_URL" = None ->
  exists evs,
    trace (snd (run w s)) =
    (trace s
       ++ [EvLog INFO "Extracting data from None" None; EvHttpGet None 30]
       ++ evs)%list.
Proof.
  intros Hurl. destruct (run_trace w s) as (evs & Ht & _).
  exists evs. rewrite Ht. unfold extract_events, CISA_KEV_URL, getenv.
  now rewrite Hurl.
Qed.

Lemma run_requests_unset_url_witness :
  exists evs,
    trace (snd (run (sample_world env_without_url 200 "OK" sample_feed)
                  initial)) =
    (EvLog INFO "Extracting data from None" None :: EvHttpGet None 30 :: evs).
Proof.
  apply (@run_requests_unset_url
           (sample_world env_without_url 200 "OK" sample_feed) initial).
  reflexivity.
Defined.

Lemma load_to_mongo_exit_signal (w : world) (docs : list pyval)
    (s s3 : state) (e : exn) :
  load_to_mongo w docs s = (Raise e, s3) ->
  is_Exception e = false ->
  exists t x, trace s3 = (t ++ [x])%list /\ is_store_call x = true.
Proof.
  unfold load_to_mongo.
  destruct (env_truthy (MONGO_URI w)); simpl.
  - step.
    destruct (MongoClient w (str_of_env (MONGO_URI w))); simpl.
    { intros [= <- <-] _. simpl. eauto. }
    destruct (get_collection w (MONGO_DB w) (MONGO_COLLECTION w)); simpl.
    { intros [= <- <-] _. simpl. eauto. }
    destruct docs as [|doc docs]; simpl; [discriminate|].
    destruct (insert_many w (MONGO_DB w) (MONGO_COLLECTION w) (doc :: docs));
      simpl; [|discriminate].
    intros [= <- <-] _. simpl. eauto.
  - intros [= <- <-] He. discriminate He.
Qed.

Lemma terminal_state_store_call (t : list event) (x : event) :
  is_store_call x = true -> terminal_state (t ++ [x]) = None.
Proof.
  intros Hx. rewrite terminal_state_last.
  destruct x; try discriminate; reflexivity.
Qed.

Lemma run_body_ok_terminal (w : world) (s s1 : state) (r : pyval) :
  run_body w s = (Ok r, s1) -> terminal_state (trace s1) = Some DONE.
Proof.
  unfold run_body, bind.
  destruct (extract w (CISA_KEV_URL w) s) as [[raw|e] s0]; try discriminate.
  destruct (transform w raw s0) as [[docs|e] s2]; try discriminate.
  destruct (load_to_mongo w docs s2) as [[x|e] s3]; try discriminate.
  step. intros [= _ <-]. simpl. now rewrite terminal_state_last.
Qed.

Lemma run_body_exit_signal_terminal (w : world) (s s1 : state) (e : exn) :
  run_body w s = (Raise e, s1) ->
  is_Exception e = false ->
  terminal_state (trace s1) = None.
Proof.
  unfold run_body, bind.
  destruct (extract w (CISA_KEV_URL w) s) as [[raw|e0] s0] eqn:E;
    pose proof (extract_result _ _ E) as Hs0.
  - pose proof (transform_trace w raw s0) as Ht.
    destruct (transform w raw s0) as [[docs|e1] s2] eqn:T; simpl in Ht.
    + destruct (load_to_mongo w docs s2) as [[x|e2] s3] eqn:L.
      * step. discriminate.
      * intros [= <- <-] He.
        destruct (load_to_mongo_exit_signal _ _ _ L He) as (t & x & -> & Hx).
        now apply terminal_state_store_call.
    + intros [= <- <-] _. rewrite Ht. now rewrite terminal_state_last.
  - intros [= <- <-] _. rewrite Hs0. simpl. unfold extract_events.
    change (trace s ++ [?a; ?b])%list with (trace s ++ [a] ++ [b])%list.
    rewrite app_assoc. now rewrite terminal_state_last.
Qed.

(** X20. The last line a run logs tells how it went: the run ends on the
    success line exactly when the whole [try] block returned, and on the
    failure line for [e] exactly when the block raised the [Exception]
    [e]. *)
Theorem run_last_line_tells_outcome (w : world) (s : state) :
  (terminal_state (trace (snd (run w s))) = Some DONE
   <-> exists r s1, run_body w s = (Ok r, s1))
  /\ (forall e,
      terminal_state (trace (snd (run w s))) = Some (FAILED e)
      <-> exists s1, run_body w s = (Raise e, s1) /\ is_Exception e = true).
Proof.
  destruct (run_body w s) as [[r|e0] s1] eqn:B.
  - rewrite (run_returns _ _ B). simpl.
    rewrite (run_body_ok_terminal _ _ B). split.
    + split; eauto.
    + intros e. split; [discriminate|].
      intros (s2 & H & _). discriminate H.
  - destruct (is_Exception e0) eqn:He.
    + rewrite (run_catches _ _ B He). simpl.
      change (trace s1 ++ [failure_log e0])%list with (trace (failed e0 s1)).
      rewrite terminal_state_failed. split.
      * split; [discriminate|]. intros (r & s2 & H). discriminate H.
      * intros e. split.
        -- intros [= <-]. eauto.
        -- intros (s2 & [= <- _] & _). reflexivity.
    + rewrite (run_passes_on _ _ B He). simpl.
      rewrite (run_body_exit_signal_terminal _ _ B He). split.
      * split; [discriminate|]. intros (r & s2 & H). discriminate H.
      * intros e. split; [discriminate|].
        intros (s2 & [= <- _] & He'). rewrite He in He'. discriminate He'.
Qed.

Lemma run_last_line_tells_outcome_witness :
  exists s1,
    run_body broken_feed_world initial = (Raise server_error, s1)
    /\ is_Exception server_error = true.
Proof.
  apply (proj2 (run_last_line_tells_outcome broken_feed_world initial)
           server_error).
  reflexivity.
Defined.
